(** * F1 Manager setup optimizer

    A shallow embedding of the computational core of the setup optimizer:
    [matrix.ts] (class [SimpleMatrix]), [types.ts], [calculator.ts] (class
    [SetupCalculator]) and [optimizer.ts] (class [IterativeOptimizer]),
    followed by the properties of the design document that concern them.

    Conventions of the embedding.
    - A JavaScript [number] is an exact rational ([Q]).  Equality of numbers
      is therefore [Qeq] ([==]); rounding of IEEE doubles is outside the
      model, and neither [NaN] nor the infinities exist in it.
    - [throw new Error(msg)] is the [Throw] case of [result].
    - The mutable fields of an [IterativeOptimizer] and the position of the
      ambient generator behind [Math.random] form [State]; methods that
      write them run in the state-and-exception monad [M].
    - [Array.prototype.sort] is the stable sort for its comparator. *)

From Stdlib Require Import String.
From Stdlib Require Import QArith Qabs Qminmax Qround Lqa.
From Stdlib Require Import ZArith Lia List Bool.
From Stdlib Require Import Sorted Permutation.
Import ListNotations.

Local Open Scope Q_scope.

(* ================================================================== *)
(** * JavaScript primitives used by the sources *)
(* ================================================================== *)

Module Js.

(** [x <= y], [x < y], [x >= y], [x > y] on numbers. *)
Definition leb (x y : Q) : bool := Qle_bool x y.
Definition ltb (x y : Q) : bool := negb (Qle_bool y x).
Definition geb (x y : Q) : bool := Qle_bool y x.
Definition gtb (x y : Q) : bool := negb (Qle_bool x y).

Definition Math_abs (x : Q) : Q := Qabs x.
Definition Math_min (x y : Q) : Q := Qmin x y.
Definition Math_max (x y : Q) : Q := Qmax x y.
Definition Math_ceil (x : Q) : Q := inject_Z (Qceiling x).

(** A loop counter or an array length, as a number. *)
Definition number (n : nat) : Q := inject_Z (Z.of_nat n).

(** The values [i] takes in [for (let i = start; i <= limit; i += step)]. *)
Fixpoint for_le_from (fuel i limit step : nat) : list nat :=
  match fuel with
  | O => []
  | S fuel' =>
      if (i <=? limit)%nat
      then i :: for_le_from fuel' (i + step) limit step
      else []
  end.

Definition for_le (start limit step : nat) : list nat :=
  for_le_from (S limit) start limit step.

(** [arr.indexOf(x)]: position of the first element equal to [x], or -1. *)
Fixpoint indexOf_from {A : Type} (eqb : A -> A -> bool) (x : A)
         (l : list A) (i : Z) : Z :=
  match l with
  | [] => (-1)%Z
  | y :: l' => if eqb y x then i else indexOf_from eqb x l' (i + 1)%Z
  end.

Definition indexOf {A : Type} (eqb : A -> A -> bool) (l : list A) (x : A) : Z :=
  indexOf_from eqb x l 0%Z.

(** [arr.sort(cmp)].  An element moves behind a later one only when the
    comparator is positive on the pair, so equal elements keep their
    order. *)
Fixpoint sort_insert {A : Type} (cmp : A -> A -> Q) (x : A) (l : list A)
  : list A :=
  match l with
  | [] => [x]
  | y :: l' => if gtb (cmp x y) 0 then y :: sort_insert cmp x l'
               else x :: y :: l'
  end.

Definition sort {A : Type} (cmp : A -> A -> Q) (l : list A) : list A :=
  fold_right (sort_insert cmp) [] l.

End Js.

(* ================================================================== *)
(** * Exceptions *)
(* ================================================================== *)

Inductive exn : Type :=
| Error (message : string).

Inductive result (A : Type) : Type :=
| Ok (a : A)
| Throw (e : exn).

Arguments Ok {A} a.
Arguments Throw {A} e.

Definition result_bind {A B : Type} (r : result A) (k : A -> result B)
  : result B :=
  match r with
  | Ok a => k a
  | Throw e => Throw e
  end.

Declare Scope result_scope.
Delimit Scope result_scope with result.
Notation "x <- c1 ;; c2" := (result_bind c1 (fun x => c2))
  (at level 61, c1 at next level, right associativity) : result_scope.

(** [for (const x of l) acc = body(acc, x)], where the body may raise. *)
Fixpoint result_fold {A B : Type} (body : B -> A -> result B) (l : list A)
         (acc : B) : result B :=
  match l with
  | [] => Ok acc
  | x :: l' => result_bind (body acc x) (result_fold body l')
  end.

(** A call completed without raising. *)
Definition returned {A : Type} (r : result A) : bool :=
  match r with
  | Ok _ => true
  | Throw _ => false
  end.

(* ================================================================== *)
(** * matrix.ts *)
(* ================================================================== *)

Module SimpleMatrix.

Record t : Type := mk {
  data : list (list Q);
  rows : nat;
  columns : nat
}.

(** [constructor(data)]: [columns = data[0]?.length || 0]. *)
Definition new (d : list (list Q)) : t :=
  {| data := d;
     rows := length d;
     columns := match d with
                | [] => 0%nat
                | row :: _ => length row
                end |}.

(** [this.data[i][j]], for indices inside the matrix. *)
Definition get (m : t) (i j : nat) : Q := nth j (nth i (data m) []) 0.

Definition getRow (m : t) (index : nat) : list Q := nth index (data m) [].

(** [getColumn(index)], for a column inside the matrix. *)
Definition getColumn (m : t) (index : nat) : list Q :=
  map (fun row => nth index row 0) (data m).

Definition sub (this other : t) : result t :=
  if negb (rows this =? rows other)%nat
     || negb (columns this =? columns other)%nat
  then Throw (Error "Matrix dimensions must match for subtraction"%string)
  else
    Ok (new (map (fun i =>
                    map (fun j => get this i j - get other i j)
                        (seq 0 (columns this)))
                 (seq 0 (rows this)))).

Definition mmul (this other : t) : result t :=
  if negb (columns this =? rows other)%nat
  then Throw (Error "Invalid matrix dimensions for multiplication"%string)
  else
    Ok (new (map (fun i =>
                    map (fun j =>
                           fold_left
                             (fun sum k => sum + get this i k * get other k j)
                             (seq 0 (columns this)) 0)
                        (seq 0 (columns other)))
                 (seq 0 (rows this)))).

Definition transpose (this : t) : t :=
  new (map (fun j => map (fun i => get this i j) (seq 0 (rows this)))
           (seq 0 (columns this))).

End SimpleMatrix.

(* ================================================================== *)
(** * types.ts *)
(* ================================================================== *)

Inductive FeedbackType : Type := OPTIMAL | GREAT | GOOD | BAD.

Definition FeedbackType_eqb (x y : FeedbackType) : bool :=
  match x, y with
  | OPTIMAL, OPTIMAL | GREAT, GREAT | GOOD, GOOD | BAD, BAD => true
  | _, _ => false
  end.

Module CarBias.
Record t : Type := mk {
  oversteer : Q;
  brakingStability : Q;
  cornering : Q;
  traction : Q;
  straights : Q
}.
End CarBias.

Module SetupParameters.
Record t : Type := mk {
  frontWingAngle : Q;
  rearWingAngle : Q;
  antiRollDistribution : Q;
  tyreCamber : Q;
  toeOut : Q
}.
End SetupParameters.

Module Biasfeedback.
Record t : Type := mk {
  oversteer : FeedbackType;
  brakingStability : FeedbackType;
  cornering : FeedbackType;
  traction : FeedbackType;
  straights : FeedbackType
}.

(** The keys of the interface, for [feedback[metric]]. *)
Inductive key : Type :=
| k_oversteer | k_brakingStability | k_cornering | k_traction | k_straights.

Definition get (f : t) (metric : key) : FeedbackType :=
  match metric with
  | k_oversteer => oversteer f
  | k_brakingStability => brakingStability f
  | k_cornering => cornering f
  | k_traction => traction f
  | k_straights => straights f
  end.
End Biasfeedback.

(* ================================================================== *)
(** * calculator.ts *)
(* ================================================================== *)

Module SetupCalculator.

Local Open Scope result_scope.

(** Rows: oversteer, braking stability, cornering, traction, straights.
    Columns: front wing, rear wing, anti-roll, camber, toe-out. *)
Definition coefficientMatrix : SimpleMatrix.t :=
  SimpleMatrix.new
    [ [0.4; -0.4; -0.1; 0.1; 0.2];
      [-0.2; 0.2; 0.15; -0.25; -0.05];
      [0.3; 0.25; -0.15; 0.25; 0];
      [-0.15; 0.25; 0.5; -0.1; 0];
      [-0.1; -0.9; 0; 0; 0] ].

Definition initialBias : CarBias.t :=
  {| CarBias.oversteer := 0.5;
     CarBias.brakingStability := 0.45;
     CarBias.cornering := 0.2;
     CarBias.traction := 0.25;
     CarBias.straights := 1.0 |}.

Module tolerances.
Definition optimal : Q := 0.007.
Definition great : Q := 0.04.
Definition good : Q := 0.1.
End tolerances.

Definition calculateBias (setup : SetupParameters.t) : result CarBias.t :=
  let setupArray :=
    [ SetupParameters.frontWingAngle setup;
      SetupParameters.rearWingAngle setup;
      SetupParameters.antiRollDistribution setup;
      SetupParameters.tyreCamber setup;
      SetupParameters.toeOut setup ] in
  let setupVector := SimpleMatrix.new [setupArray] in
  let middleSetup := SimpleMatrix.new [[0.5; 0.5; 0.5; 0.5; 0.5]] in
  setupDiff <- SimpleMatrix.sub setupVector middleSetup ;;
  biasChanges <-
    SimpleMatrix.mmul setupDiff (SimpleMatrix.transpose coefficientMatrix) ;;
  let biasArray := SimpleMatrix.getRow biasChanges 0 in
  Ok {| CarBias.oversteer :=
          CarBias.oversteer initialBias + nth 0 biasArray 0;
        CarBias.brakingStability :=
          CarBias.brakingStability initialBias + nth 1 biasArray 0;
        CarBias.cornering :=
          CarBias.cornering initialBias + nth 2 biasArray 0;
        CarBias.traction :=
          CarBias.traction initialBias + nth 3 biasArray 0;
        CarBias.straights :=
          CarBias.straights initialBias + nth 4 biasArray 0 |}.

Definition calculateConfidence (bias : CarBias.t) : Q :=
  let biasValues :=
    [ CarBias.oversteer bias; CarBias.brakingStability bias;
      CarBias.cornering bias; CarBias.traction bias;
      CarBias.straights bias ] in
  let totalConfidence :=
    fold_left
      (fun totalConfidence value =>
         let distance := Js.Math_abs (value - 0.5) in
         if Js.gtb distance tolerances.optimal
         then
           let penalty := Js.Math_min (distance * 100) 20 in
           totalConfidence - penalty
         else totalConfidence)
      biasValues 100 in
  Js.Math_max 0 totalConfidence.

Definition feedbackMatches (calculated expected : FeedbackType) : bool :=
  let feedbackOrder := [BAD; GOOD; GREAT; OPTIMAL] in
  let calcIndex := Js.indexOf FeedbackType_eqb feedbackOrder calculated in
  let expIndex := Js.indexOf FeedbackType_eqb feedbackOrder expected in
  Js.leb (Js.Math_abs (inject_Z (calcIndex - expIndex))) 1.

(** [distances.reduce((a, b) => a + b)] has no initial value: the fold
    starts from the first of the five distances. *)
Definition classifyFeedback (bias : CarBias.t) : FeedbackType :=
  let distances :=
    [ Js.Math_abs (CarBias.oversteer bias - 0.5);
      Js.Math_abs (CarBias.brakingStability bias - 0.5);
      Js.Math_abs (CarBias.cornering bias - 0.5);
      Js.Math_abs (CarBias.traction bias - 0.5);
      Js.Math_abs (CarBias.straights bias - 0.5) ] in
  let avgDistance :=
    fold_left (fun a b => a + b) (tl distances) (hd 0 distances)
    / Js.number (length distances) in
  if Js.leb avgDistance tolerances.optimal then OPTIMAL
  else if Js.leb avgDistance tolerances.great then GREAT
  else if Js.leb avgDistance tolerances.good then GOOD
  else BAD.

Definition generateAllCombinations : list SetupParameters.t :=
  let steps := 20%nat in
  flat_map (fun fw =>
  flat_map (fun rw =>
  flat_map (fun ar =>
  flat_map (fun tc =>
  flat_map (fun to =>
    [ {| SetupParameters.frontWingAngle := Js.number fw / Js.number steps;
         SetupParameters.rearWingAngle := Js.number rw / Js.number steps;
         SetupParameters.antiRollDistribution :=
           Js.number ar / Js.number steps;
         SetupParameters.tyreCamber := Js.number tc / Js.number steps;
         SetupParameters.toeOut := Js.number to / Js.number steps |} ])
    (Js.for_le 0 steps 1))
    (Js.for_le 0 steps 1))
    (Js.for_le 0 steps 1))
    (Js.for_le 0 steps 1))
    (Js.for_le 0 steps 1).

(** The feedback [findOptimalSetup] derives for a bias: each metric is
    classified on its own, the other four being put at 0.5. *)
Definition isolatedFeedback (bias : CarBias.t) : Biasfeedback.t :=
  {| Biasfeedback.oversteer :=
       classifyFeedback
         (CarBias.mk (CarBias.oversteer bias) 0.5 0.5 0.5 0.5);
     Biasfeedback.brakingStability :=
       classifyFeedback
         (CarBias.mk 0.5 (CarBias.brakingStability bias) 0.5 0.5 0.5);
     Biasfeedback.cornering :=
       classifyFeedback
         (CarBias.mk 0.5 0.5 (CarBias.cornering bias) 0.5 0.5);
     Biasfeedback.traction :=
       classifyFeedback
         (CarBias.mk 0.5 0.5 0.5 (CarBias.traction bias) 0.5);
     Biasfeedback.straights :=
       classifyFeedback
         (CarBias.mk 0.5 0.5 0.5 0.5 (CarBias.straights bias)) |}.

(** [findOptimalSetup(feedback?)]; [validSetups] holds pairs of a setup and
    its confidence. *)
Definition findOptimalSetup (feedback : option Biasfeedback.t)
  : result (list SetupParameters.t) :=
  let allCombinations := generateAllCombinations in
  validSetups <-
    result_fold
      (fun validSetups setup =>
         bias <- calculateBias setup ;;
         let confidence := calculateConfidence bias in
         match feedback with
         | Some feedback =>
             let setupFeedback := isolatedFeedback bias in
             let matchesFeedback :=
               feedbackMatches (Biasfeedback.oversteer setupFeedback)
                               (Biasfeedback.oversteer feedback)
               && feedbackMatches (Biasfeedback.brakingStability setupFeedback)
                                  (Biasfeedback.brakingStability feedback)
               && feedbackMatches (Biasfeedback.cornering setupFeedback)
                                  (Biasfeedback.cornering feedback)
               && feedbackMatches (Biasfeedback.traction setupFeedback)
                                  (Biasfeedback.traction feedback)
               && feedbackMatches (Biasfeedback.straights setupFeedback)
                                  (Biasfeedback.straights feedback) in
             if matchesFeedback
             then Ok (validSetups ++ [(setup, confidence)])
             else Ok validSetups
         | None => Ok (validSetups ++ [(setup, confidence)])
         end)
      allCombinations [] ;;
  let sorted := Js.sort (fun a b => snd b - snd a) validSetups in
  Ok (map fst (firstn 10 sorted)).

End SetupCalculator.

(* ================================================================== *)
(** * optimizer.ts *)
(* ================================================================== *)

Module SetupCandidate.
Record t : Type := mk {
  setup : SetupParameters.t;
  bias : CarBias.t;
  confidence : Q;
  feedback : Biasfeedback.t;
  score : Q
}.
End SetupCandidate.

(** The element type of [attemptHistory]. *)
Module Attempt.
Record t : Type := mk {
  setup : SetupParameters.t;
  feedback : Biasfeedback.t;
  confidence : Q
}.
End Attempt.

(** The object returned by [getStats]. *)
Module Stats.
Record t : Type := mk {
  totalCandidates : nat;
  attemptCount : nat;
  bestConfidence : Q;
  convergenceRate : Q
}.
End Stats.

Module IterativeOptimizer.

(** [this.candidates], [this.attemptHistory], and the number of calls made
    to [Math.random] so far.  [this.calculator] has no mutable field. *)
Record State : Type := mkState {
  candidates : list SetupCandidate.t;
  attemptHistory : list Attempt.t;
  randomCalls : nat
}.

Definition set_candidates (c : list SetupCandidate.t) (st : State) : State :=
  {| candidates := c;
     attemptHistory := attemptHistory st;
     randomCalls := randomCalls st |}.

Definition set_attemptHistory (h : list Attempt.t) (st : State) : State :=
  {| candidates := candidates st;
     attemptHistory := h;
     randomCalls := randomCalls st |}.

(** ** The monad of methods *)

Definition M (A : Type) : Type := State -> result (A * State).

Definition ret {A : Type} (a : A) : M A := fun st => Ok (a, st).

Definition bind {A B : Type} (m : M A) (k : A -> M B) : M B :=
  fun st =>
    match m st with
    | Ok (a, st') => k a st'
    | Throw e => Throw e
    end.

Definition lift {A : Type} (r : result A) : M A :=
  fun st =>
    match r with
    | Ok a => Ok (a, st)
    | Throw e => Throw e
    end.

Definition gets {A : Type} (f : State -> A) : M A := fun st => Ok (f st, st).

Definition modify (f : State -> State) : M unit := fun st => Ok (tt, f st).

Declare Scope method_scope.
Delimit Scope method_scope with method.
Notation "x <- c1 ;; c2" := (bind c1 (fun x => c2))
  (at level 61, c1 at next level, right associativity) : method_scope.
Notation "c1 ;; c2" := (bind c1 (fun _ => c2))
  (at level 61, right associativity) : method_scope.

Local Open Scope method_scope.

(** [for (const x of l) acc = body(acc, x)] *)
Fixpoint foldM {A B : Type} (body : B -> A -> M B) (l : list A) (acc : B)
  : M B :=
  match l with
  | [] => ret acc
  | x :: l' => acc' <- body acc x ;; foldM body l' acc'
  end.

(** [for (const x of l) body(x)] *)
Fixpoint forM_ {A : Type} (l : list A) (body : A -> M unit) : M unit :=
  match l with
  | [] => ret tt
  | x :: l' => body x ;; forM_ l' body
  end.

(** ** Pure private helpers *)

Definition classifyBiasMetric (value : Q) : FeedbackType :=
  let distance := Js.Math_abs (value - 0.5) in
  if Js.leb distance 0.007 then OPTIMAL
  else if Js.leb distance 0.04 then GREAT
  else if Js.leb distance 0.1 then GOOD
  else BAD.

Definition generateFeedback (bias : CarBias.t) : Biasfeedback.t :=
  {| Biasfeedback.oversteer := classifyBiasMetric (CarBias.oversteer bias);
     Biasfeedback.brakingStability :=
       classifyBiasMetric (CarBias.brakingStability bias);
     Biasfeedback.cornering := classifyBiasMetric (CarBias.cornering bias);
     Biasfeedback.traction := classifyBiasMetric (CarBias.traction bias);
     Biasfeedback.straights := classifyBiasMetric (CarBias.straights bias) |}.

Definition calculateScore (setup : SetupParameters.t) (bias : CarBias.t)
           (confidence : Q) : Q :=
  let score := confidence in
  let setupValues :=
    [ SetupParameters.frontWingAngle setup;
      SetupParameters.rearWingAngle setup;
      SetupParameters.antiRollDistribution setup;
      SetupParameters.tyreCamber setup;
      SetupParameters.toeOut setup ] in
  let balance :=
    fold_left (fun sum val => sum + Js.Math_abs (val - 0.5)) setupValues 0
    / Js.number (length setupValues) in
  let score := score + (0.5 - balance) * 20 in
  let biasValues :=
    [ CarBias.oversteer bias; CarBias.brakingStability bias;
      CarBias.cornering bias; CarBias.traction bias;
      CarBias.straights bias ] in
  let extremeBias :=
    fold_left
      (fun sum val =>
         if Js.ltb val 0 || Js.gtb val 1
         then sum + Js.Math_abs (if Js.ltb val 0 then val else val - 1) * 50
         else sum)
      biasValues 0 in
  let score := score - extremeBias in
  Js.Math_max 0 score.

Definition clamp (value min max : Q) : Q :=
  Js.Math_max min (Js.Math_min max value).

Definition feedbackCompatible (calculated expected : FeedbackType) : bool :=
  let feedbackOrder := [BAD; GOOD; GREAT; OPTIMAL] in
  let calcIndex := Js.indexOf FeedbackType_eqb feedbackOrder calculated in
  let expIndex := Js.indexOf FeedbackType_eqb feedbackOrder expected in
  Js.leb (Js.Math_abs (inject_Z (calcIndex - expIndex))) 1.

Definition feedbackMatches (calculated expected : Biasfeedback.t) : bool :=
  let metrics :=
    [ Biasfeedback.k_oversteer; Biasfeedback.k_brakingStability;
      Biasfeedback.k_cornering; Biasfeedback.k_traction;
      Biasfeedback.k_straights ] in
  forallb
    (fun metric =>
       feedbackCompatible (Biasfeedback.get calculated metric)
                          (Biasfeedback.get expected metric))
    metrics.

(** The comparator [(a, b) => b.score - a.score]. *)
Definition byScore (a b : SetupCandidate.t) : Q :=
  SetupCandidate.score b - SetupCandidate.score a.

(** ** Pool construction *)

Definition initializeCandidates : M unit :=
  modify (set_candidates []) ;;
  let steps := 10%nat in
  let levels := Js.for_le 0 steps 2 in
  forM_ levels (fun fw =>
  forM_ levels (fun rw =>
  forM_ levels (fun ar =>
  forM_ levels (fun tc =>
  forM_ levels (fun to =>
    let setup :=
      {| SetupParameters.frontWingAngle := Js.number fw / Js.number steps;
         SetupParameters.rearWingAngle := Js.number rw / Js.number steps;
         SetupParameters.antiRollDistribution :=
           Js.number ar / Js.number steps;
         SetupParameters.tyreCamber := Js.number tc / Js.number steps;
         SetupParameters.toeOut := Js.number to / Js.number steps |} in
    bias <- lift (SetupCalculator.calculateBias setup) ;;
    let confidence := SetupCalculator.calculateConfidence bias in
    let feedback := generateFeedback bias in
    let score := calculateScore setup bias confidence in
    modify (fun st =>
      set_candidates
        (candidates st
         ++ [ {| SetupCandidate.setup := setup;
                 SetupCandidate.bias := bias;
                 SetupCandidate.confidence := confidence;
                 SetupCandidate.feedback := feedback;
                 SetupCandidate.score := score |} ])
        st)))))) ;;
  modify (fun st => set_candidates (Js.sort byScore (candidates st)) st).

Definition constructor : M unit :=
  modify (set_candidates []) ;;
  modify (set_attemptHistory []) ;;
  initializeCandidates.

(** [new IterativeOptimizer()], when [Math.random] has been called
    [calls] times before. *)
Definition new (calls : nat) : result State :=
  match constructor (mkState [] [] calls) with
  | Ok (_, st) => Ok st
  | Throw e => Throw e
  end.

Definition reset : M unit :=
  modify (set_attemptHistory []) ;;
  initializeCandidates.

(** ** Narrowing *)

Section WithRandomSource.

(** [random k] is the value of the [k]-th call of [Math.random()]
    (counting from 0). *)
Variable random : nat -> Q.

Definition Math_random : M Q :=
  fun st =>
    Ok (random (randomCalls st),
        {| candidates := candidates st;
           attemptHistory := attemptHistory st;
           randomCalls := S (randomCalls st) |}).

Definition generateVariations (baseSetup : SetupParameters.t)
           (range : Q) (count : nat) : M (list SetupParameters.t) :=
  foldM
    (fun variations (_ : nat) =>
       r1 <- Math_random ;;
       let frontWingAngle :=
         clamp (SetupParameters.frontWingAngle baseSetup
                + (r1 - 0.5) * range) 0 1 in
       r2 <- Math_random ;;
       let rearWingAngle :=
         clamp (SetupParameters.rearWingAngle baseSetup
                + (r2 - 0.5) * range) 0 1 in
       r3 <- Math_random ;;
       let antiRollDistribution :=
         clamp (SetupParameters.antiRollDistribution baseSetup
                + (r3 - 0.5) * range) 0 1 in
       r4 <- Math_random ;;
       let tyreCamber :=
         clamp (SetupParameters.tyreCamber baseSetup
                + (r4 - 0.5) * range) 0 1 in
       r5 <- Math_random ;;
       let toeOut :=
         clamp (SetupParameters.toeOut baseSetup
                + (r5 - 0.5) * range) 0 1 in
       let variation :=
         {| SetupParameters.frontWingAngle := frontWingAngle;
            SetupParameters.rearWingAngle := rearWingAngle;
            SetupParameters.antiRollDistribution := antiRollDistribution;
            SetupParameters.tyreCamber := tyreCamber;
            SetupParameters.toeOut := toeOut |} in
       ret (variations ++ [variation]))
    (seq 0 count) [].

Definition expandCandidatesAroundBest (feedback : Biasfeedback.t)
  : M unit :=
  pool <- gets candidates ;;
  let topCandidates := firstn 3 pool in
  newCandidates <-
    foldM
      (fun newCandidates candidate =>
         variations <-
           generateVariations (SetupCandidate.setup candidate) 0.1 5 ;;
         foldM
           (fun newCandidates variation =>
              bias <- lift (SetupCalculator.calculateBias variation) ;;
              let confidence :=
                SetupCalculator.calculateConfidence bias in
              let candidateFeedback := generateFeedback bias in
              if feedbackMatches candidateFeedback feedback
              then
                let score := calculateScore variation bias confidence in
                ret (newCandidates
                     ++ [ {| SetupCandidate.setup := variation;
                             SetupCandidate.bias := bias;
                             SetupCandidate.confidence := confidence;
                             SetupCandidate.feedback := candidateFeedback;
                             SetupCandidate.score := score |} ])
              else ret newCandidates)
           variations newCandidates)
      topCandidates [] ;;
  modify (fun st => set_candidates (candidates st ++ newCandidates) st).

Definition narrowCandidates (feedback : Biasfeedback.t) : M unit :=
  modify (fun st =>
    set_candidates
      (filter (fun candidate =>
                 feedbackMatches (SetupCandidate.feedback candidate)
                                 feedback)
              (candidates st))
      st) ;;
  pool <- gets candidates ;;
  (if (length pool <? 5)%nat
   then expandCandidatesAroundBest feedback
   else ret tt) ;;
  modify (fun st => set_candidates (Js.sort byScore (candidates st)) st).

Definition recordAttempt (setup : SetupParameters.t)
           (feedback : Biasfeedback.t) : M unit :=
  bias <- lift (SetupCalculator.calculateBias setup) ;;
  let confidence := SetupCalculator.calculateConfidence bias in
  modify (fun st =>
    set_attemptHistory
      (attemptHistory st
       ++ [ {| Attempt.setup := setup;
               Attempt.feedback := feedback;
               Attempt.confidence := confidence |} ])
      st) ;;
  narrowCandidates feedback.

End WithRandomSource.

(** ** Queries *)

Definition getBestRecommendations (count : nat) (st : State)
  : list SetupParameters.t :=
  map SetupCandidate.setup (firstn count (candidates st)).

Definition calculateConvergenceRate (st : State) : Q :=
  if (length (attemptHistory st) <? 2)%nat then 0
  else
    let confidences := map Attempt.confidence (attemptHistory st) in
    let improvements :=
      map (fun i => nth i confidences 0 - nth (i - 1) confidences 0)
          (seq 1 (length confidences - 1)) in
    let avgImprovement :=
      fold_left (fun a b => a + b) improvements 0
      / Js.number (length improvements) in
    Js.Math_max 0 avgImprovement.

Definition getStats (st : State) : Stats.t :=
  let bestConfidence :=
    match candidates st with
    | [] => 0
    | best :: _ => SetupCandidate.confidence best
    end in
  let convergenceRate := calculateConvergenceRate st in
  {| Stats.totalCandidates := length (candidates st);
     Stats.attemptCount := length (attemptHistory st);
     Stats.bestConfidence := bestConfidence;
     Stats.convergenceRate := convergenceRate |}.

Definition predictConfidence (setup : SetupParameters.t) : result Q :=
  (bias <- SetupCalculator.calculateBias setup ;;
   Ok (SetupCalculator.calculateConfidence bias))%result.

Definition isOptimal (st : State) : bool :=
  match candidates st with
  | [] => false
  | best :: _ => Js.geb (SetupCandidate.confidence best) 99.0
  end.

Definition estimateAttemptsToOptimal (st : State) : Q :=
  let stats := getStats st in
  if Js.geb (Stats.bestConfidence stats) 99 then 0
  else if Js.leb (Stats.convergenceRate stats) 0 then 5
  else
    let remaining := 99 - Stats.bestConfidence stats in
    Js.Math_ceil (remaining / Stats.convergenceRate stats).

End IterativeOptimizer.

(* ================================================================== *)
(** * The design document's formulas *)
(* ================================================================== *)

Module Spec.

(** Ordinal position in BAD < GOOD < GREAT < OPTIMAL. *)
Definition ordinal (x : FeedbackType) : Z :=
  match x with
  | BAD => 0
  | GOOD => 1
  | GREAT => 2
  | OPTIMAL => 3
  end%Z.

Definition setupVector (s : SetupParameters.t) : list Q :=
  [ SetupParameters.frontWingAngle s; SetupParameters.rearWingAngle s;
    SetupParameters.antiRollDistribution s; SetupParameters.tyreCamber s;
    SetupParameters.toeOut s ].

Definition biasVector (b : CarBias.t) : list Q :=
  [ CarBias.oversteer b; CarBias.brakingStability b; CarBias.cornering b;
    CarBias.traction b; CarBias.straights b ].

Fixpoint dot (u v : list Q) : Q :=
  match u, v with
  | a :: u', b :: v' => a * b + dot u' v'
  | _, _ => 0
  end.

(** [initialBias + CoefficientMatrix · (setup − 0.5·𝟙)], one dot product
    per bias metric. *)
Definition bias_formula (s : SetupParameters.t) : list Q :=
  let centred := map (fun x => x - 0.5) (setupVector s) in
  map (fun '(initial, row) => initial + dot row centred)
      (combine (biasVector SetupCalculator.initialBias)
               (SimpleMatrix.data SetupCalculator.coefficientMatrix)).

Definition mid : SetupParameters.t :=
  {| SetupParameters.frontWingAngle := 0.5;
     SetupParameters.rearWingAngle := 0.5;
     SetupParameters.antiRollDistribution := 0.5;
     SetupParameters.tyreCamber := 0.5;
     SetupParameters.toeOut := 0.5 |}.

(** [a + b − m] on setups, component by component. *)
Definition setup_add_sub (a b m : SetupParameters.t) : SetupParameters.t :=
  {| SetupParameters.frontWingAngle :=
       SetupParameters.frontWingAngle a + SetupParameters.frontWingAngle b
       - SetupParameters.frontWingAngle m;
     SetupParameters.rearWingAngle :=
       SetupParameters.rearWingAngle a + SetupParameters.rearWingAngle b
       - SetupParameters.rearWingAngle m;
     SetupParameters.antiRollDistribution :=
       SetupParameters.antiRollDistribution a
       + SetupParameters.antiRollDistribution b
       - SetupParameters.antiRollDistribution m;
     SetupParameters.tyreCamber :=
       SetupParameters.tyreCamber a + SetupParameters.tyreCamber b
       - SetupParameters.tyreCamber m;
     SetupParameters.toeOut :=
       SetupParameters.toeOut a + SetupParameters.toeOut b
       - SetupParameters.toeOut m |}.

(** The penalty of one bias component. *)
Definition penalty (value : Q) : Q :=
  let distance := Qabs (value - 0.5) in
  if Qlt_le_dec 0.007 distance then Qmin (distance * 100) 20 else 0.

Definition sum (l : list Q) : Q := fold_right Qplus 0 l.

(** 100 less the penalties of the five components, clamped at 0. *)
Definition confidence_formula (b : CarBias.t) : Q :=
  Qmax 0 (100 - sum (map penalty (biasVector b))).

(** [confidences[i] − confidences[i−1]] for every [i] that has a
    predecessor. *)
Fixpoint deltas (confidences : list Q) : list Q :=
  match confidences with
  | previous :: (current :: _) as rest => (current - previous) :: deltas rest
  | _ => []
  end.

Definition mean (l : list Q) : Q :=
  sum l / inject_Z (Z.of_nat (length l)).

(** Mean of the successive deltas; 0 below two attempts. *)
Definition mean_delta (confidences : list Q) : Q :=
  if (length confidences <? 2)%nat then 0 else mean (deltas confidences).

(** Some component lies outside [0, 1]. *)
Definition out_of_range (s : SetupParameters.t) : Prop :=
  Exists (fun x => x < 0 \/ 1 < x) (setupVector s).

Definition sorted_by_score (pool : list SetupCandidate.t) : Prop :=
  StronglySorted
    (fun a b => SetupCandidate.score b <= SetupCandidate.score a) pool.

(** A candidate's own feedback is compatible with [submitted] on every
    metric. *)
Definition compatible_on_all_metrics (submitted : Biasfeedback.t)
           (c : SetupCandidate.t) : Prop :=
  forall metric : Biasfeedback.key,
    IterativeOptimizer.feedbackCompatible
      (Biasfeedback.get (SetupCandidate.feedback c) metric)
      (Biasfeedback.get submitted metric) = true.

End Spec.

(** [st'] has the pool and the history of [st]: what drawing random numbers
    leaves alone. *)
Definition same_fields (st st' : IterativeOptimizer.State) : Prop :=
  IterativeOptimizer.candidates st' = IterativeOptimizer.candidates st
  /\ IterativeOptimizer.attemptHistory st'
     = IterativeOptimizer.attemptHistory st.

(** Inputs used in the concrete runs below. *)
Module Examples.

Definition ones : SetupParameters.t :=
  {| SetupParameters.frontWingAngle := 1;
     SetupParameters.rearWingAngle := 1;
     SetupParameters.antiRollDistribution := 1;
     SetupParameters.tyreCamber := 1;
     SetupParameters.toeOut := 1 |}.

(** Front wing at 2, beyond the documented range. *)
Definition wide : SetupParameters.t :=
  {| SetupParameters.frontWingAngle := 2;
     SetupParameters.rearWingAngle := 0.5;
     SetupParameters.antiRollDistribution := 0.5;
     SetupParameters.tyreCamber := 0.5;
     SetupParameters.toeOut := 0.5 |}.

Definition all_bad : Biasfeedback.t :=
  {| Biasfeedback.oversteer := BAD;
     Biasfeedback.brakingStability := BAD;
     Biasfeedback.cornering := BAD;
     Biasfeedback.traction := BAD;
     Biasfeedback.straights := BAD |}.

(** A generator stuck at 0.5: every perturbation is zero. *)
Definition half : nat -> Q := fun _ => 0.5.

(** An optimizer whose pool is empty and which has seen no attempt. *)
Definition empty : IterativeOptimizer.State :=
  IterativeOptimizer.mkState [] [] 0.

(** An empty pool after attempts of confidence 35 and then 75. *)
Definition improving : IterativeOptimizer.State :=
  IterativeOptimizer.mkState []
    [ Attempt.mk Spec.mid all_bad 35; Attempt.mk ones all_bad 75 ] 0.

(** What the all-0.5 setup is classified as, metric by metric. *)
Definition mid_feedback : Biasfeedback.t :=
  {| Biasfeedback.oversteer := OPTIMAL;
     Biasfeedback.brakingStability := GOOD;
     Biasfeedback.cornering := BAD;
     Biasfeedback.traction := BAD;
     Biasfeedback.straights := BAD |}.

(** A pool reduced to the candidate of the all-0.5 setup. *)
Definition lone : IterativeOptimizer.State :=
  IterativeOptimizer.mkState
    [ {| SetupCandidate.setup := Spec.mid;
         SetupCandidate.bias := SetupCalculator.initialBias;
         SetupCandidate.confidence := 35;
         SetupCandidate.feedback := mid_feedback;
         SetupCandidate.score := 45 |} ]
    [] 0.

(** A pool led by a candidate of confidence 100, written by hand. *)
Definition settled : IterativeOptimizer.State :=
  IterativeOptimizer.mkState
    [ {| SetupCandidate.setup := Spec.mid;
         SetupCandidate.bias := CarBias.mk 0.5 0.5 0.5 0.5 0.5;
         SetupCandidate.confidence := 100;
         SetupCandidate.feedback :=
           Biasfeedback.mk OPTIMAL OPTIMAL OPTIMAL OPTIMAL OPTIMAL;
         SetupCandidate.score := 110 |} ]
    [] 0.

End Examples.

(** The method [m], run from [st], returns normally with a value and a final
    state that satisfy [post]. *)
Definition returns {A : Type} (m : IterativeOptimizer.M A)
           (st : IterativeOptimizer.State)
           (post : A -> IterativeOptimizer.State -> Prop) : Prop :=
  exists a st', m st = Ok (a, st') /\ post a st'.

(* ================================================================== *)
(** * Notions used by the further properties *)
(* ================================================================== *)

Module Props.

(** Every component of the setup lies in [0, 1]. *)
Definition in_range (s : SetupParameters.t) : Prop :=
  Forall (fun x => 0 <= x <= 1) (Spec.setupVector s).

(** Distances from 0.5 of the five bias components. *)
Definition distances (b : CarBias.t) : list Q :=
  map (fun value => Qabs (value - 0.5)) (Spec.biasVector b).

(** The setup of a candidate is in range and its other fields are what the
    calculator and the scoring derive from that setup. *)
Definition consistent (c : SetupCandidate.t) : Prop :=
  in_range (SetupCandidate.setup c)
  /\ SetupCalculator.calculateBias (SetupCandidate.setup c)
     = Ok (SetupCandidate.bias c)
  /\ SetupCandidate.confidence c
     = SetupCalculator.calculateConfidence (SetupCandidate.bias c)
  /\ SetupCandidate.feedback c
     = IterativeOptimizer.generateFeedback (SetupCandidate.bias c)
  /\ SetupCandidate.score c
     = IterativeOptimizer.calculateScore (SetupCandidate.setup c)
         (SetupCandidate.bias c) (SetupCandidate.confidence c).

(** What the constructor of [SimpleMatrix] yields for [r] rows of [c]
    entries each. *)
Definition rectangular (m : SimpleMatrix.t) (r c : nat) : Prop :=
  m = SimpleMatrix.new (SimpleMatrix.data m)
  /\ length (SimpleMatrix.data m) = r
  /\ Forall (fun row => length row = c) (SimpleMatrix.data m).

(** States an optimizer can be in: freshly constructed, or obtained from
    such a state by [recordAttempt] and [reset]. *)
Inductive reachable (random : nat -> Q) : IterativeOptimizer.State -> Prop :=
| reachable_new (calls : nat) (st : IterativeOptimizer.State) :
    IterativeOptimizer.new calls = Ok st -> reachable random st
| reachable_recordAttempt (st st' : IterativeOptimizer.State)
    (setup : SetupParameters.t) (feedback : Biasfeedback.t) :
    reachable random st ->
    IterativeOptimizer.recordAttempt random setup feedback st = Ok (tt, st') ->
    reachable random st'
| reachable_reset (st st' : IterativeOptimizer.State) :
    reachable random st ->
    IterativeOptimizer.reset st = Ok (tt, st') ->
    reachable random st'.

(** The candidates of [pool] that [recordAttempt] keeps for [feedback]. *)
Definition survivors (feedback : Biasfeedback.t)
           (pool : list SetupCandidate.t) : list SetupCandidate.t :=
  filter (fun candidate =>
            IterativeOptimizer.feedbackMatches
              (SetupCandidate.feedback candidate) feedback)
         pool.

(** The bias and the confidence of a setup, [calculateBias] never raising. *)
Definition bias_of (s : SetupParameters.t) : CarBias.t :=
  match SetupCalculator.calculateBias s with
  | Ok b => b
  | Throw _ => SetupCalculator.initialBias
  end.

Definition confidence_of (s : SetupParameters.t) : Q :=
  SetupCalculator.calculateConfidence (bias_of s).

(** Classified metric by metric as [findOptimalSetup] does, the setup is
    within one level of [feedback] everywhere. *)
Definition meets (feedback : Biasfeedback.t) (s : SetupParameters.t) : Prop :=
  forall metric : Biasfeedback.key,
    SetupCalculator.feedbackMatches
      (Biasfeedback.get (SetupCalculator.isolatedFeedback (bias_of s)) metric)
      (Biasfeedback.get feedback metric) = true.

(** The constraint of [findOptimalSetup]: none without feedback. *)
Definition admitted (feedback : option Biasfeedback.t)
           (s : SetupParameters.t) : Prop :=
  match feedback with
  | Some f => meets f s
  | None => True
  end.

(** The test [findOptimalSetup] applies to a grid point. *)
Definition admittedb (feedback : option Biasfeedback.t)
           (s : SetupParameters.t) : bool :=
  match feedback with
  | Some f =>
      forallb
        (fun metric =>
           SetupCalculator.feedbackMatches
             (Biasfeedback.get
                (SetupCalculator.isolatedFeedback (bias_of s)) metric)
             (Biasfeedback.get f metric))
        [ Biasfeedback.k_oversteer; Biasfeedback.k_brakingStability;
          Biasfeedback.k_cornering; Biasfeedback.k_traction;
          Biasfeedback.k_straights ]
  | None => true
  end.

Definition descending {A : Type} (key : A -> Q) (l : list A) : Prop :=
  StronglySorted (fun a b => key b <= key a) l.

End Props.

(** Further inputs for concrete runs. *)
Module Samples.

(** The candidate the optimizer builds for the all-0.5 setup. *)
Definition mid_candidate : SetupCandidate.t :=
  {| SetupCandidate.setup := Spec.mid;
     SetupCandidate.bias := Props.bias_of Spec.mid;
     SetupCandidate.confidence := Props.confidence_of Spec.mid;
     SetupCandidate.feedback :=
       IterativeOptimizer.generateFeedback (Props.bias_of Spec.mid);
     SetupCandidate.score :=
       IterativeOptimizer.calculateScore Spec.mid (Props.bias_of Spec.mid)
         (Props.confidence_of Spec.mid) |}.

(** A pool of five such candidates, no attempt recorded. *)
Definition crowd : IterativeOptimizer.State :=
  IterativeOptimizer.mkState (repeat mid_candidate 5) [] 0.

(** A pool of two such candidates. *)
Definition pair : IterativeOptimizer.State :=
  IterativeOptimizer.mkState (repeat mid_candidate 2) [] 0.

(** A generator alternating between its two extreme values. *)
Definition alternating : nat -> Q := fun k => if Nat.even k then 0 else 1.

End Samples.

(* ================================================================== *)
(** * Properties of the calculator *)
(* ================================================================== *)

Lemma gtb_true_iff (x y : Q) : Js.gtb x y = true <-> y < x.
Proof.
  unfold Js.gtb. rewrite negb_true_iff, <- not_true_iff_false, Qle_bool_iff.
  split; [apply Qnot_le_lt | apply Qlt_not_le].
Qed.

Lemma gtb_false_iff (x y : Q) : Js.gtb x y = false <-> x <= y.
Proof.
  unfold Js.gtb. rewrite negb_false_iff. apply Qle_bool_iff.
Qed.

Lemma leb_true_iff (x y : Q) : Js.leb x y = true <-> x <= y.
Proof. apply Qle_bool_iff. Qed.

Lemma geb_true_iff (x y : Q) : Js.geb x y = true <-> y <= x.
Proof. apply Qle_bool_iff. Qed.

Lemma geb_false_iff (x y : Q) : Js.geb x y = false <-> x < y.
Proof.
  unfold Js.geb. rewrite <- not_true_iff_false, Qle_bool_iff.
  split; [apply Qnot_le_lt | apply Qlt_not_le].
Qed.

Lemma leb_false_iff (x y : Q) : Js.leb x y = false <-> y < x.
Proof. apply (geb_false_iff y x). Qed.

(** [calculateBias] never raises: the two matrices it builds always have the
    shapes [sub] and [mmul] ask for. *)
Lemma calculateBias_Ok (s : SetupParameters.t) :
  exists b, SetupCalculator.calculateBias s = Ok b.
Proof. eexists. reflexivity. Qed.

(** C1. For every setup, whatever its components, [calculateBias] returns
    the bias [initialBias + CoefficientMatrix · (setup − 0.5)], each metric
    being the dot product of its matrix row with the centred setup; at the
    all-0.5 setup the result is 0.5, 0.45, 0.2, 0.25, 1.0. *)
Theorem calculateBias_linear_formula :
  (forall s : SetupParameters.t,
      exists b, SetupCalculator.calculateBias s = Ok b
                /\ Forall2 Qeq (Spec.biasVector b) (Spec.bias_formula s))
  /\ (exists b, SetupCalculator.calculateBias Spec.mid = Ok b
                /\ Forall2 Qeq (Spec.biasVector b) [0.5; 0.45; 0.2; 0.25; 1.0]).
Proof.
  split.
  - intros s. eexists. split; [reflexivity|].
    unfold Spec.biasVector. cbn -[Qplus Qmult Qminus].
    repeat (constructor; [ring|]). constructor.
  - eexists. split; [reflexivity|].
    repeat (constructor; [vm_compute; reflexivity|]). constructor.
Qed.

Lemma confidence_step (total value : Q) :
  (if Js.gtb (Js.Math_abs (value - 0.5)) SetupCalculator.tolerances.optimal
   then total - Js.Math_min (Js.Math_abs (value - 0.5) * 100) 20
   else total)
  == total - Spec.penalty value.
Proof.
  unfold Spec.penalty, Js.Math_abs, Js.Math_min,
    SetupCalculator.tolerances.optimal.
  destruct (Js.gtb (Qabs (value - 0.5)) 0.007) eqn:E;
    destruct (Qlt_le_dec 0.007 (Qabs (value - 0.5))) as [H|H].
  - reflexivity.
  - apply gtb_true_iff in E. exfalso. apply (Qlt_not_le _ _ E H).
  - apply gtb_false_iff in E. exfalso. apply (Qlt_not_le _ _ H E).
  - ring.
Qed.

(** C2. [calculateConfidence] is 100 less the penalty [min(distance × 100,
    20)] of each of the five components whose distance from 0.5 exceeds
    0.007, clamped at 0; the bias of the all-0.5 setup has distances 0, 0.05,
    0.3, 0.25, 0.5 and confidence 35. *)
Theorem calculateConfidence_formula :
  (forall b : CarBias.t,
      SetupCalculator.calculateConfidence b == Spec.confidence_formula b)
  /\ (exists b, SetupCalculator.calculateBias Spec.mid = Ok b
                /\ Forall2 Qeq
                     (map (fun value => Qabs (value - 0.5)) (Spec.biasVector b))
                     [0; 0.05; 0.3; 0.25; 0.5]
                /\ SetupCalculator.calculateConfidence b == 35.0).
Proof.
  split.
  - intros [o bs c t s].
    unfold SetupCalculator.calculateConfidence, Spec.confidence_formula.
    cbn [fold_left map Spec.biasVector Spec.sum fold_right CarBias.oversteer
         CarBias.brakingStability CarBias.cornering CarBias.traction
         CarBias.straights].
    unfold Js.Math_max. apply Q.max_compat; [reflexivity|].
    rewrite (confidence_step _ s).
    rewrite (confidence_step _ t).
    rewrite (confidence_step _ c).
    rewrite (confidence_step _ bs).
    rewrite (confidence_step _ o).
    ring.
  - eexists. split; [reflexivity|]. split.
    + repeat (constructor; [vm_compute; reflexivity|]). constructor.
    + vm_compute. reflexivity.
Qed.

(** C7. Over exact arithmetic [calculateBias] is affine: for all setups [a]
    and [b], bias(a) + bias(b) − bias(mid) is bias(a + b − mid), metric by
    metric, where mid is the all-0.5 setup. *)
Theorem calculateBias_affine :
  forall a b : SetupParameters.t,
  exists ba bb bm bc,
    SetupCalculator.calculateBias a = Ok ba
    /\ SetupCalculator.calculateBias b = Ok bb
    /\ SetupCalculator.calculateBias Spec.mid = Ok bm
    /\ SetupCalculator.calculateBias (Spec.setup_add_sub a b Spec.mid) = Ok bc
    /\ CarBias.oversteer ba + CarBias.oversteer bb - CarBias.oversteer bm
       == CarBias.oversteer bc
    /\ CarBias.brakingStability ba + CarBias.brakingStability bb
       - CarBias.brakingStability bm
       == CarBias.brakingStability bc
    /\ CarBias.cornering ba + CarBias.cornering bb - CarBias.cornering bm
       == CarBias.cornering bc
    /\ CarBias.traction ba + CarBias.traction bb - CarBias.traction bm
       == CarBias.traction bc
    /\ CarBias.straights ba + CarBias.straights bb - CarBias.straights bm
       == CarBias.straights bc.
Proof.
  intros a b. do 4 eexists.
  repeat (split; [reflexivity|]).
  cbn -[Qplus Qmult Qminus].
  repeat split; ring.
Qed.

(** C8. Compatibility of two feedback levels, in the optimizer and in the
    calculator alike, is reflexive and symmetric, and holds exactly when the
    ordinal positions in BAD < GOOD < GREAT < OPTIMAL differ by at most 1;
    GOOD goes with BAD, GOOD and GREAT but not with OPTIMAL. *)
Theorem feedbackCompatible_ordinal :
  (forall x y : FeedbackType,
      IterativeOptimizer.feedbackCompatible x x = true
      /\ IterativeOptimizer.feedbackCompatible x y
         = IterativeOptimizer.feedbackCompatible y x
      /\ (IterativeOptimizer.feedbackCompatible x y = true
          <-> (Z.abs (Spec.ordinal x - Spec.ordinal y) <= 1)%Z)
      /\ SetupCalculator.feedbackMatches x y
         = IterativeOptimizer.feedbackCompatible x y)
  /\ map (IterativeOptimizer.feedbackCompatible GOOD) [BAD; GOOD; GREAT; OPTIMAL]
     = [true; true; true; false].
Proof.
  split; [|reflexivity].
  intros x y. repeat split; destruct x, y; vm_compute;
    try reflexivity; try discriminate; intros H; try discriminate H;
    exfalso; apply H; reflexivity.
Qed.

(* ================================================================== *)
(** * Reasoning about methods *)
(* ================================================================== *)

Section MethodLogic.

Import IterativeOptimizer.
Local Open Scope method_scope.

Lemma returns_ret {A} (a : A) st (post : A -> State -> Prop) :
  post a st -> returns (ret a) st post.
Proof. intros H. exists a, st. split; [reflexivity | exact H]. Qed.

Lemma returns_gets {A} (f : State -> A) st (post : A -> State -> Prop) :
  post (f st) st -> returns (gets f) st post.
Proof. intros H. exists (f st), st. split; [reflexivity | exact H]. Qed.

Lemma returns_modify (f : State -> State) st (post : unit -> State -> Prop) :
  post tt (f st) -> returns (modify f) st post.
Proof. intros H. exists tt, (f st). split; [reflexivity | exact H]. Qed.

Lemma returns_lift {A} (r : result A) (a : A) st (post : A -> State -> Prop) :
  r = Ok a -> post a st -> returns (lift r) st post.
Proof.
  intros -> H. exists a, st. split; [reflexivity | exact H].
Qed.

Lemma returns_bind {A B} (m : M A) (k : A -> M B) st
      (post : B -> State -> Prop) :
  returns m st (fun a st' => returns (k a) st' post) ->
  returns (bind m k) st post.
Proof.
  intros (a & st' & Hm & b & st'' & Hk & Hpost).
  exists b, st''. split; [|exact Hpost].
  unfold bind. rewrite Hm. exact Hk.
Qed.

Lemma returns_weaken {A} (m : M A) st (P Q : A -> State -> Prop) :
  returns m st P -> (forall a st', P a st' -> Q a st') -> returns m st Q.
Proof.
  intros (a & st' & Hm & HP) HPQ. exists a, st'. auto.
Qed.

Lemma returns_foldM {A B} (body : B -> A -> M B) (inv : B -> State -> Prop) :
  forall (l : list A) (acc : B) (st : State),
    inv acc st ->
    (forall acc' x st', In x l -> inv acc' st' ->
                        returns (body acc' x) st' inv) ->
    returns (foldM body l acc) st inv.
Proof.
  induction l as [|x l IH]; intros acc st Hinv Hbody; cbn [foldM].
  - apply returns_ret, Hinv.
  - apply returns_bind.
    eapply returns_weaken; [apply Hbody; [left; reflexivity | exact Hinv]|].
    cbn beta. intros acc' st' Hinv'. apply IH; [exact Hinv'|].
    intros acc'' y st'' Hy. apply Hbody. right. exact Hy.
Qed.

Lemma returns_forM_ {A} (body : A -> M unit) (inv : State -> Prop) :
  forall (l : list A) (st : State),
    inv st ->
    (forall x st', In x l -> inv st' ->
                   returns (body x) st' (fun _ => inv)) ->
    returns (forM_ l body) st (fun _ => inv).
Proof.
  induction l as [|x l IH]; intros st Hinv Hbody; cbn [forM_].
  - apply returns_ret, Hinv.
  - apply returns_bind.
    eapply returns_weaken; [apply Hbody; [left; reflexivity | exact Hinv]|].
    cbn beta. intros _ st' Hinv'. apply IH; [exact Hinv'|].
    intros y st'' Hy. apply Hbody. right. exact Hy.
Qed.

End MethodLogic.

(* ================================================================== *)
(** * The sort *)
(* ================================================================== *)

Section Sort.

Context {A : Type} (cmp : A -> A -> Q).

Lemma sort_insert_Permutation (x : A) (l : list A) :
  Permutation (x :: l) (Js.sort_insert cmp x l).
Proof.
  induction l as [|y l IH]; cbn [Js.sort_insert].
  - apply Permutation_refl.
  - destruct (Js.gtb (cmp x y) 0).
    + eapply perm_trans; [apply perm_swap|]. apply perm_skip, IH.
    + apply Permutation_refl.
Qed.

Lemma sort_Permutation (l : list A) : Permutation l (Js.sort cmp l).
Proof.
  unfold Js.sort. induction l as [|x l IH]; cbn [fold_right].
  - apply perm_nil.
  - eapply perm_trans; [apply perm_skip, IH|].
    apply sort_insert_Permutation.
Qed.

End Sort.

Lemma byScore_sort_insert_sorted (x : SetupCandidate.t)
      (l : list SetupCandidate.t) :
  Spec.sorted_by_score l ->
  Spec.sorted_by_score (Js.sort_insert IterativeOptimizer.byScore x l).
Proof.
  unfold Spec.sorted_by_score.
  induction l as [|y l IH]; intros Hs; cbn [Js.sort_insert].
  - constructor; constructor.
  - apply StronglySorted_inv in Hs. destruct Hs as [Hl Hy].
    destruct (Js.gtb (IterativeOptimizer.byScore x y) 0) eqn:E.
    + apply gtb_true_iff in E. unfold IterativeOptimizer.byScore in E.
      constructor; [apply IH, Hl|].
      eapply Permutation_Forall;
        [apply (sort_insert_Permutation IterativeOptimizer.byScore)|].
      constructor; [lra | exact Hy].
    + apply gtb_false_iff in E. unfold IterativeOptimizer.byScore in E.
      constructor; [constructor; assumption|].
      constructor; [lra|].
      eapply Forall_impl; [|exact Hy]. cbn beta. intros z Hz. lra.
Qed.

Lemma byScore_sort_sorted (l : list SetupCandidate.t) :
  Spec.sorted_by_score (Js.sort IterativeOptimizer.byScore l).
Proof.
  unfold Js.sort. induction l as [|x l IH]; cbn [fold_right].
  - constructor.
  - apply byScore_sort_insert_sorted, IH.
Qed.

(* ================================================================== *)
(** * Properties of the optimizer *)
(* ================================================================== *)

Section OptimizerLemmas.

Import IterativeOptimizer.
Local Open Scope method_scope.

Lemma feedbackMatches_true_iff (calculated expected : Biasfeedback.t) :
  feedbackMatches calculated expected = true
  <-> forall metric : Biasfeedback.key,
      feedbackCompatible (Biasfeedback.get calculated metric)
                         (Biasfeedback.get expected metric) = true.
Proof.
  unfold feedbackMatches. cbn [forallb].
  rewrite !andb_true_iff. split.
  - intros (Ho & Hb & Hc & Ht & Hs & _) metric.
    destruct metric; assumption.
  - intros H. repeat split; apply H.
Qed.

Lemma initializeCandidates_returns (st : State) :
  returns initializeCandidates st
          (fun _ st' =>
             Spec.sorted_by_score (candidates st')
             /\ attemptHistory st' = attemptHistory st
             /\ randomCalls st' = randomCalls st).
Proof.
  unfold initializeCandidates. cbv zeta.
  apply returns_bind, returns_modify. apply returns_bind.
  set (inv := fun st' : State =>
                attemptHistory st' = attemptHistory st
                /\ randomCalls st' = randomCalls st).
  apply returns_weaken with (P := fun _ => inv).
  - apply returns_forM_; [split; reflexivity|]. intros fw st1 _ H1.
    apply returns_forM_; [exact H1|]. intros rw st2 _ H2.
    apply returns_forM_; [exact H2|]. intros ar st3 _ H3.
    apply returns_forM_; [exact H3|]. intros tc st4 _ H4.
    apply returns_forM_; [exact H4|]. intros to st5 _ H5.
    apply returns_bind.
    match goal with
    | |- returns (lift (SetupCalculator.calculateBias ?s)) _ _ =>
        destruct (calculateBias_Ok s) as [b Hb];
        apply (returns_lift _ b); [exact Hb|]
    end.
    apply returns_modify. exact H5.
  - intros _ st' [Hh Hr]. apply returns_modify.
    cbn [set_candidates candidates attemptHistory randomCalls].
    split; [apply byScore_sort_sorted | split; assumption].
Qed.

Lemma new_returns (calls : nat) :
  exists st, new calls = Ok st
             /\ Spec.sorted_by_score (candidates st)
             /\ attemptHistory st = []
             /\ randomCalls st = calls.
Proof.
  unfold new, constructor, bind, modify.
  destruct (initializeCandidates_returns
              (set_attemptHistory [] (set_candidates [] (mkState [] [] calls))))
    as ([] & st & Hrun & Hs & Hh & Hr).
  exists st. rewrite Hrun. repeat split; assumption.
Qed.

Lemma reset_returns (st : State) :
  returns reset st
          (fun _ st' =>
             Spec.sorted_by_score (candidates st')
             /\ attemptHistory st' = []).
Proof.
  unfold reset. apply returns_bind, returns_modify.
  eapply returns_weaken; [apply initializeCandidates_returns|].
  cbn beta. intros _ st' (Hs & Hh & _). split; assumption.
Qed.

Variable random : nat -> Q.

Lemma Math_random_returns (st : State) (post : Q -> State -> Prop) :
  post (random (randomCalls st))
       (mkState (candidates st) (attemptHistory st) (S (randomCalls st))) ->
  returns (Math_random random) st post.
Proof. intros H. eexists _, _. split; [reflexivity | exact H]. Qed.

Lemma generateVariations_returns (baseSetup : SetupParameters.t) (range : Q)
      (count : nat) (st : State) :
  returns (generateVariations random baseSetup range count) st
          (fun _ st' => same_fields st st').
Proof.
  unfold generateVariations.
  apply (returns_foldM _ (fun _ st' => same_fields st st'));
    [split; reflexivity|].
  intros variations i st' _ Hst'.
  do 5 (apply returns_bind, Math_random_returns; cbv zeta).
  apply returns_ret. exact Hst'.
Qed.

Lemma expandCandidatesAroundBest_returns (feedback : Biasfeedback.t)
      (st : State) :
  Forall (Spec.compatible_on_all_metrics feedback) (candidates st) ->
  returns (expandCandidatesAroundBest random feedback) st
          (fun _ st' =>
             Forall (Spec.compatible_on_all_metrics feedback) (candidates st')
             /\ attemptHistory st' = attemptHistory st).
Proof.
  intros Hpool. unfold expandCandidatesAroundBest.
  apply returns_bind, returns_gets. cbv zeta. apply returns_bind.
  set (inv := fun (newCandidates : list SetupCandidate.t) (st' : State) =>
                Forall (Spec.compatible_on_all_metrics feedback) newCandidates
                /\ same_fields st st').
  apply returns_weaken with (P := inv).
  - apply returns_foldM; [split; [constructor | split; reflexivity]|].
    intros acc candidate st1 _ [Hacc Hst1].
    apply returns_bind.
    eapply returns_weaken; [apply generateVariations_returns|].
    cbn beta. intros variations st2 Hst2.
    assert (Hsame : same_fields st st2).
    { destruct Hst1 as [Hc1 Hh1], Hst2 as [Hc2 Hh2].
      split; congruence. }
    apply returns_foldM; [split; assumption|].
    intros acc' variation st3 _ [Hacc' Hst3].
    apply returns_bind.
    destruct (calculateBias_Ok variation) as [b Hb].
    apply (returns_lift _ b); [exact Hb|]. cbv zeta.
    destruct (feedbackMatches (generateFeedback b) feedback) eqn:E;
      apply returns_ret; (split; [|exact Hst3]); [|exact Hacc'].
    apply Forall_app. split; [exact Hacc'|].
    constructor; [|constructor].
    exact (proj1 (feedbackMatches_true_iff _ _) E).
  - intros newCandidates st' [Hnew [Hc Hh]]. apply returns_modify.
    cbn [set_candidates candidates attemptHistory]. split; [|exact Hh].
    apply Forall_app. rewrite Hc. split; assumption.
Qed.

Lemma narrowCandidates_returns (feedback : Biasfeedback.t) (st : State) :
  returns (narrowCandidates random feedback) st
          (fun _ st' =>
             Forall (Spec.compatible_on_all_metrics feedback) (candidates st')
             /\ Spec.sorted_by_score (candidates st')
             /\ attemptHistory st' = attemptHistory st).
Proof.
  unfold narrowCandidates.
  apply returns_bind, returns_modify.
  apply returns_bind, returns_gets.
  apply returns_bind.
  set (st1 := set_candidates _ st).
  assert (Hfiltered :
            Forall (Spec.compatible_on_all_metrics feedback) (candidates st1)).
  { apply Forall_forall. intros c Hc. apply filter_In in Hc.
    exact (proj1 (feedbackMatches_true_iff _ _) (proj2 Hc)). }
  apply returns_weaken
    with (P := fun _ st' =>
                 Forall (Spec.compatible_on_all_metrics feedback)
                        (candidates st')
                 /\ attemptHistory st' = attemptHistory st).
  - destruct (length (candidates st1) <? 5)%nat.
    + eapply returns_weaken;
        [apply expandCandidatesAroundBest_returns, Hfiltered|].
      cbn beta. intros _ st' [Hall Hh]. split; [exact Hall | exact Hh].
    + apply returns_ret. split; [exact Hfiltered | reflexivity].
  - intros _ st' [Hall Hh]. apply returns_modify.
    cbn [set_candidates candidates attemptHistory].
    split; [|split; [apply byScore_sort_sorted | exact Hh]].
    eapply Permutation_Forall; [apply sort_Permutation | exact Hall].
Qed.

Lemma recordAttempt_returns (setup : SetupParameters.t)
      (feedback : Biasfeedback.t) (st : State) :
  exists bias,
    SetupCalculator.calculateBias setup = Ok bias
    /\ returns (recordAttempt random setup feedback) st
         (fun _ st' =>
            Forall (Spec.compatible_on_all_metrics feedback) (candidates st')
            /\ Spec.sorted_by_score (candidates st')
            /\ attemptHistory st'
               = attemptHistory st
                 ++ [ Attempt.mk setup feedback
                        (SetupCalculator.calculateConfidence bias) ]).
Proof.
  destruct (calculateBias_Ok setup) as [b Hb]. exists b.
  split; [exact Hb|]. unfold recordAttempt.
  apply returns_bind. apply (returns_lift _ b); [exact Hb|]. cbv zeta.
  apply returns_bind, returns_modify.
  eapply returns_weaken; [apply narrowCandidates_returns|].
  cbn beta. intros _ st' (Hall & Hs & Hh).
  repeat split; assumption.
Qed.

End OptimizerLemmas.

(** ** Narrowing keeps the pool compatible and sorted *)

(** C5. From every state and for every submitted feedback, [recordAttempt]
    returns; afterwards every candidate in the pool, whether it survived the
    filter or was regenerated by perturbation, is compatible with the
    submitted feedback on all five metrics, and the history is the old one
    followed by exactly one record. *)
Theorem recordAttempt_pool_compatible :
  forall (random : nat -> Q) (st : IterativeOptimizer.State)
         (setup : SetupParameters.t) (feedback : Biasfeedback.t),
  exists st' record,
    IterativeOptimizer.recordAttempt random setup feedback st = Ok (tt, st')
    /\ Forall (Spec.compatible_on_all_metrics feedback)
              (IterativeOptimizer.candidates st')
    /\ IterativeOptimizer.attemptHistory st'
       = IterativeOptimizer.attemptHistory st ++ [record]
    /\ Attempt.setup record = setup
    /\ Attempt.feedback record = feedback.
Proof.
  intros random st setup feedback.
  destruct (recordAttempt_returns random setup feedback st)
    as (b & _ & [] & st' & Hrun & Hall & _ & Hh).
  exists st'. eexists. split; [exact Hrun|]. split; [exact Hall|].
  split; [exact Hh|]. split; reflexivity.
Qed.

(** A run in which the filter leaves one candidate, so regeneration takes
    place: with a generator stuck at 0.5 the five perturbations of the
    survivor are five copies of its setup, and the pool grows to six. *)
Example recordAttempt_regenerates :
  match IterativeOptimizer.recordAttempt Examples.half Spec.mid
          Examples.mid_feedback Examples.lone with
  | Ok (_, st') =>
      (length (IterativeOptimizer.candidates st'),
       IterativeOptimizer.randomCalls st')
  | Throw _ => (0%nat, 0%nat)
  end = (6%nat, 25%nat).
Proof. vm_compute. reflexivity. Qed.

(** C6. After the initial generation, after [recordAttempt] (regenerating or
    not) and after [reset], the pool is in descending order of score. *)
Theorem pool_sorted_after_mutation :
  (forall calls : nat,
      exists st, IterativeOptimizer.new calls = Ok st
                 /\ Spec.sorted_by_score (IterativeOptimizer.candidates st))
  /\ (forall (random : nat -> Q) (st : IterativeOptimizer.State)
             (setup : SetupParameters.t) (feedback : Biasfeedback.t),
         exists st',
           IterativeOptimizer.recordAttempt random setup feedback st
           = Ok (tt, st')
           /\ Spec.sorted_by_score (IterativeOptimizer.candidates st'))
  /\ (forall st : IterativeOptimizer.State,
         exists st',
           IterativeOptimizer.reset st = Ok (tt, st')
           /\ Spec.sorted_by_score (IterativeOptimizer.candidates st')).
Proof.
  split; [|split].
  - intros calls. destruct (new_returns calls) as (st & Hnew & Hs & _).
    exists st. split; assumption.
  - intros random st setup feedback.
    destruct (recordAttempt_returns random setup feedback st)
      as (b & _ & [] & st' & Hrun & _ & Hs & _).
    exists st'. split; assumption.
  - intros st. destruct (reset_returns st) as ([] & st' & Hrun & Hs & _).
    exists st'. split; assumption.
Qed.

(** ** Statistics *)

Lemma fold_left_plus_sum (l : list Q) (acc : Q) :
  fold_left (fun a b => a + b) l acc == acc + Spec.sum l.
Proof.
  revert acc. induction l as [|x l IH]; intros acc; cbn [fold_left].
  - unfold Spec.sum. cbn [fold_right]. ring.
  - rewrite IH. unfold Spec.sum. cbn [fold_right]. ring.
Qed.

Lemma shifted_differences (l : list Q) (previous : Q) :
  map (fun i => nth i l 0 - nth i (previous :: l) 0) (seq 0 (length l))
  = Spec.deltas (previous :: l).
Proof.
  revert previous. induction l as [|current l IH]; intros previous.
  - reflexivity.
  - cbn [length seq map nth Spec.deltas]. f_equal.
    rewrite <- seq_shift, map_map. apply IH.
Qed.

Lemma improvements_deltas (confidences : list Q) :
  map (fun i => nth i confidences 0 - nth (i - 1) confidences 0)
      (seq 1 (length confidences - 1))
  = Spec.deltas confidences.
Proof.
  destruct confidences as [|first l]; [reflexivity|].
  cbn [length]. rewrite Nat.sub_succ, Nat.sub_0_r.
  rewrite <- seq_shift, map_map. rewrite <- shifted_differences.
  apply map_ext. intros i.
  replace (S i - 1)%nat with i by lia. reflexivity.
Qed.

Lemma calculateConvergenceRate_clamped_mean (st : IterativeOptimizer.State) :
  IterativeOptimizer.calculateConvergenceRate st
  == Qmax 0 (Spec.mean_delta
               (map Attempt.confidence (IterativeOptimizer.attemptHistory st))).
Proof.
  unfold IterativeOptimizer.calculateConvergenceRate, Spec.mean_delta.
  cbv zeta. rewrite improvements_deltas, length_map.
  destruct (length (IterativeOptimizer.attemptHistory st) <? 2)%nat.
  - symmetry. apply Q.max_id.
  - unfold Js.Math_max, Js.number, Spec.mean.
    apply Q.max_compat; [reflexivity|].
    rewrite fold_left_plus_sum, Qplus_0_l. reflexivity.
Qed.

(** C3, as the code has it. For every attempt history, the convergence rate
    reported by [getStats] is the mean of the successive confidence deltas
    clamped below at 0: the mean itself when that is not negative, and 0
    when it is negative or when fewer than two attempts were recorded. *)
Theorem convergenceRate_clamped_mean :
  forall st : IterativeOptimizer.State,
    Stats.convergenceRate (IterativeOptimizer.getStats st)
    == Qmax 0 (Spec.mean_delta
                 (map Attempt.confidence (IterativeOptimizer.attemptHistory st))).
Proof.
  intros st. unfold IterativeOptimizer.getStats. cbn [Stats.convergenceRate].
  apply calculateConvergenceRate_clamped_mean.
Qed.

(** C3 fails as stated: a fresh optimizer that records the all-1 setup
    (confidence 75) and then the all-0.5 setup (confidence 35) has a mean
    delta of -40, and [getStats] reports 0. *)
Lemma convergenceRate_declining_history :
  exists st0 st1 st2,
    IterativeOptimizer.new 0 = Ok st0
    /\ IterativeOptimizer.recordAttempt Examples.half Examples.ones
         Examples.all_bad st0 = Ok (tt, st1)
    /\ IterativeOptimizer.recordAttempt Examples.half Spec.mid
         Examples.all_bad st1 = Ok (tt, st2)
    /\ Forall2 Qeq
         (map Attempt.confidence (IterativeOptimizer.attemptHistory st2))
         [75; 35]
    /\ Spec.mean_delta
         (map Attempt.confidence (IterativeOptimizer.attemptHistory st2))
       == -40
    /\ Stats.convergenceRate (IterativeOptimizer.getStats st2) == 0
    /\ ~ Stats.convergenceRate (IterativeOptimizer.getStats st2)
         == Spec.mean_delta
              (map Attempt.confidence (IterativeOptimizer.attemptHistory st2)).
Proof.
  destruct (new_returns 0) as (st0 & Hnew & _ & Hh0 & _).
  destruct (recordAttempt_returns Examples.half Examples.ones
              Examples.all_bad st0)
    as (b1 & Hb1 & [] & st1 & Hrun1 & _ & _ & Hh1).
  destruct (recordAttempt_returns Examples.half Spec.mid
              Examples.all_bad st1)
    as (b2 & Hb2 & [] & st2 & Hrun2 & _ & _ & Hh2).
  exists st0, st1, st2.
  split; [exact Hnew|]. split; [exact Hrun1|]. split; [exact Hrun2|].
  injection Hb1 as <-. injection Hb2 as <-.
  rewrite Hh0 in Hh1. rewrite Hh1 in Hh2. cbn [app] in Hh2.
  unfold IterativeOptimizer.getStats. cbn [Stats.convergenceRate].
  unfold IterativeOptimizer.calculateConvergenceRate. rewrite Hh2.
  split; [repeat (constructor; [vm_compute; reflexivity|]); constructor|].
  split; [vm_compute; reflexivity|].
  split; [vm_compute; reflexivity|].
  vm_compute. discriminate.
Qed.

(** C9. [estimateAttemptsToOptimal] is 0 when the best confidence is at
    least 99; below 99 it is 5 when the convergence rate is not positive and
    the ceiling of (99 − best) / rate when it is positive, and in either
    case a positive integer. *)
Theorem estimateAttemptsToOptimal_cases :
  forall st : IterativeOptimizer.State,
    let best := Stats.bestConfidence (IterativeOptimizer.getStats st) in
    let rate := Stats.convergenceRate (IterativeOptimizer.getStats st) in
    (99 <= best -> IterativeOptimizer.estimateAttemptsToOptimal st = 0)
    /\ (best < 99 -> rate <= 0 ->
        IterativeOptimizer.estimateAttemptsToOptimal st = 5)
    /\ (best < 99 -> 0 < rate ->
        IterativeOptimizer.estimateAttemptsToOptimal st
        = Js.Math_ceil ((99 - best) / rate))
    /\ (best < 99 ->
        exists n : Z,
          (0 < n)%Z
          /\ IterativeOptimizer.estimateAttemptsToOptimal st = inject_Z n).
Proof.
  intros st best rate.
  unfold IterativeOptimizer.estimateAttemptsToOptimal. cbv zeta.
  fold best rate.
  destruct (Js.geb best 99) eqn:Ebest.
  - apply geb_true_iff in Ebest.
    repeat split; try reflexivity; intros Hlt; exfalso;
      apply (Qlt_not_le _ _ Hlt Ebest).
  - apply geb_false_iff in Ebest.
    split; [intros Hge; exfalso; apply (Qlt_not_le _ _ Ebest Hge)|].
    destruct (Js.leb rate 0) eqn:Erate.
    + apply leb_true_iff in Erate.
      split; [reflexivity|].
      split; [intros _ Hpos; exfalso; apply (Qlt_not_le _ _ Hpos Erate)|].
      intros _. exists 5%Z. split; reflexivity.
    + apply leb_false_iff in Erate.
      split; [intros _ Hle; exfalso; apply (Qlt_not_le _ _ Erate Hle)|].
      split; [reflexivity|].
      intros _. exists (Qceiling ((99 - best) / rate)).
      split; [|reflexivity].
      assert (Hq : 0 < (99 - best) / rate).
      { apply Qlt_shift_div_l; [exact Erate |].
        clearbody best rate. lra. }
      pose proof (Qle_ceiling ((99 - best) / rate)) as Hc.
      assert (Hz : 0 < inject_Z (Qceiling ((99 - best) / rate)))
        by (eapply Qlt_le_trans; eassumption).
      rewrite Zlt_Qlt. exact Hz.
Qed.

Lemma estimateAttemptsToOptimal_cases_witness :
  IterativeOptimizer.estimateAttemptsToOptimal Examples.settled = 0
  /\ IterativeOptimizer.estimateAttemptsToOptimal Examples.empty = 5
  /\ IterativeOptimizer.estimateAttemptsToOptimal Examples.improving
     = Js.Math_ceil
         ((99 - Stats.bestConfidence
                  (IterativeOptimizer.getStats Examples.improving))
          / Stats.convergenceRate
              (IterativeOptimizer.getStats Examples.improving))
  /\ exists n : Z,
      (0 < n)%Z
      /\ IterativeOptimizer.estimateAttemptsToOptimal Examples.improving
         = inject_Z n.
Proof.
  split; [|split; [|split]].
  - apply (proj1 (estimateAttemptsToOptimal_cases Examples.settled)).
    vm_compute. discriminate.
  - apply (proj1 (proj2 (estimateAttemptsToOptimal_cases Examples.empty))).
    + vm_compute. reflexivity.
    + vm_compute. discriminate.
  - apply (proj1 (proj2 (proj2
             (estimateAttemptsToOptimal_cases Examples.improving)))).
    + vm_compute. reflexivity.
    + vm_compute. reflexivity.
  - apply (proj2 (proj2 (proj2
             (estimateAttemptsToOptimal_cases Examples.improving)))).
    vm_compute. reflexivity.
Defined.

(** C10. On an empty pool [isOptimal] answers false and [getStats] reports a
    best confidence of 0; both are plain reads of the pool. *)
Theorem empty_pool_queries :
  forall st : IterativeOptimizer.State,
    IterativeOptimizer.candidates st = [] ->
    IterativeOptimizer.isOptimal st = false
    /\ Stats.bestConfidence (IterativeOptimizer.getStats st) = 0
    /\ Stats.totalCandidates (IterativeOptimizer.getStats st) = 0%nat.
Proof.
  intros st Hempty.
  unfold IterativeOptimizer.isOptimal, IterativeOptimizer.getStats.
  cbn [Stats.bestConfidence Stats.totalCandidates].
  rewrite Hempty. repeat split.
Qed.

Lemma empty_pool_queries_witness :
  IterativeOptimizer.candidates Examples.empty = []
  /\ IterativeOptimizer.isOptimal Examples.empty = false
  /\ Stats.bestConfidence (IterativeOptimizer.getStats Examples.empty) = 0
  /\ Stats.totalCandidates (IterativeOptimizer.getStats Examples.empty) = 0%nat.
Proof.
  split; [reflexivity|].
  apply (empty_pool_queries Examples.empty). reflexivity.
Defined.

(** ** Entry points and out-of-range setups *)

(** C4, as the code has it. The entry points validate nothing: for every
    setup, also one with a component outside [0, 1], [predictConfidence]
    returns the confidence of the computed bias, and [recordAttempt] returns
    after appending the attempt with that confidence to the history. *)
Theorem entry_points_accept_any_setup :
  forall (random : nat -> Q) (st : IterativeOptimizer.State)
         (setup : SetupParameters.t) (feedback : Biasfeedback.t),
  exists bias st',
    SetupCalculator.calculateBias setup = Ok bias
    /\ IterativeOptimizer.predictConfidence setup
       = Ok (SetupCalculator.calculateConfidence bias)
    /\ IterativeOptimizer.recordAttempt random setup feedback st
       = Ok (tt, st')
    /\ IterativeOptimizer.attemptHistory st'
       = IterativeOptimizer.attemptHistory st
         ++ [ Attempt.mk setup feedback
                (SetupCalculator.calculateConfidence bias) ].
Proof.
  intros random st setup feedback.
  destruct (recordAttempt_returns random setup feedback st)
    as (b & Hb & [] & st' & Hrun & _ & _ & Hh).
  exists b, st'. split; [exact Hb|].
  split; [|split; assumption].
  unfold IterativeOptimizer.predictConfidence, result_bind.
  rewrite Hb. reflexivity.
Qed.

(** C4 fails as stated: with the front wing at 2, [predictConfidence]
    returns a number, and [recordAttempt] on a fresh optimizer returns and
    leaves a history of one record. *)
Lemma out_of_range_setup_not_rejected :
  Spec.out_of_range Examples.wide
  /\ returned (IterativeOptimizer.predictConfidence Examples.wide) = true
  /\ exists st0 st1,
      IterativeOptimizer.new 0 = Ok st0
      /\ IterativeOptimizer.recordAttempt Examples.half Examples.wide
           Examples.all_bad st0 = Ok (tt, st1)
      /\ IterativeOptimizer.attemptHistory st0 = []
      /\ length (IterativeOptimizer.attemptHistory st1) = 1%nat.
Proof.
  split.
  - apply Exists_cons_hd. right. reflexivity.
  - split; [reflexivity|].
    destruct (new_returns 0) as (st0 & Hnew & _ & Hh0 & _).
    destruct (recordAttempt_returns Examples.half Examples.wide
                Examples.all_bad st0)
      as (b & _ & [] & st1 & Hrun & _ & _ & Hh1).
    exists st0, st1. repeat split; try assumption.
    rewrite Hh1, Hh0. reflexivity.
Qed.

(* ================================================================== *)
(** * Further properties of the calculator *)
(* ================================================================== *)

Lemma abs_facts (x : Q) : 0 <= Qabs x /\ - Qabs x <= x /\ x <= Qabs x.
Proof.
  split; [apply Qabs_nonneg|].
  apply Qabs_Qle_condition, Qle_refl.
Qed.

Lemma penalty_bounds (value : Q) :
  0 <= Spec.penalty value <= 20.
Proof.
  unfold Spec.penalty. cbv zeta.
  destruct (Qlt_le_dec 0.007 (Qabs (value - 0.5))) as [H|H].
  - split; [|apply Q.le_min_r].
    apply Q.min_glb; lra.
  - split; lra.
Qed.

Lemma penalty_zero_iff (value : Q) :
  Spec.penalty value == 0 <-> Qabs (value - 0.5) <= 0.007.
Proof.
  unfold Spec.penalty. cbv zeta.
  destruct (Qlt_le_dec 0.007 (Qabs (value - 0.5))) as [H|H].
  - split; intros H'; [|lra].
    exfalso.
    destruct (Q.min_spec (Qabs (value - 0.5) * 100) 20) as [[_ E]|[_ E]];
      rewrite E in H'; lra.
  - split; intros _; [exact H | reflexivity].
Qed.

Lemma penalty_monotone (value value' : Q) :
  Qabs (value - 0.5) <= Qabs (value' - 0.5) ->
  Spec.penalty value <= Spec.penalty value'.
Proof.
  intros Hd. unfold Spec.penalty. cbv zeta.
  destruct (Qlt_le_dec 0.007 (Qabs (value - 0.5))) as [H|H];
    destruct (Qlt_le_dec 0.007 (Qabs (value' - 0.5))) as [H'|H'].
  - apply Q.min_le_compat_r. lra.
  - lra.
  - apply Q.min_glb; lra.
  - lra.
Qed.

(** Far from 0.5 the penalty is the distance in percent less at most 0.7,
    unless the cap of 20 is reached. *)
Lemma penalty_lower (value : Q) :
  Qabs (value - 0.5) * 100 - 0.7 <= Spec.penalty value
  \/ Spec.penalty value == 20.
Proof.
  unfold Spec.penalty. cbv zeta.
  destruct (Qlt_le_dec 0.007 (Qabs (value - 0.5))) as [H|H].
  - destruct (Q.min_spec (Qabs (value - 0.5) * 100) 20) as [[_ E]|[_ E]].
    + left. rewrite E. lra.
    + right. exact E.
  - left. lra.
Qed.

Lemma calculateConfidence_penalties (b : CarBias.t) :
  SetupCalculator.calculateConfidence b
  == Qmax 0 (100 - (Spec.penalty (CarBias.oversteer b)
                    + Spec.penalty (CarBias.brakingStability b)
                    + Spec.penalty (CarBias.cornering b)
                    + Spec.penalty (CarBias.traction b)
                    + Spec.penalty (CarBias.straights b))).
Proof.
  destruct b as [o bs c t s].
  unfold SetupCalculator.calculateConfidence.
  cbn [fold_left CarBias.oversteer CarBias.brakingStability CarBias.cornering
       CarBias.traction CarBias.straights].
  unfold Js.Math_max. apply Q.max_compat; [reflexivity|].
  rewrite (confidence_step _ s), (confidence_step _ t), (confidence_step _ c),
    (confidence_step _ bs), (confidence_step _ o).
  ring.
Qed.

(** X1. The confidence of any bias vector lies between 0 and 100. *)
Theorem calculateConfidence_bounds :
  forall b : CarBias.t,
    0 <= SetupCalculator.calculateConfidence b <= 100.
Proof.
  intros b. rewrite calculateConfidence_penalties.
  pose proof (penalty_bounds (CarBias.oversteer b)).
  pose proof (penalty_bounds (CarBias.brakingStability b)).
  pose proof (penalty_bounds (CarBias.cornering b)).
  pose proof (penalty_bounds (CarBias.traction b)).
  pose proof (penalty_bounds (CarBias.straights b)).
  split; [apply Q.le_max_l|].
  apply Q.max_lub; lra.
Qed.

Lemma classifyBiasMetric_OPTIMAL_iff (value : Q) :
  IterativeOptimizer.classifyBiasMetric value = OPTIMAL
  <-> Qabs (value - 0.5) <= 0.007.
Proof.
  unfold IterativeOptimizer.classifyBiasMetric, Js.Math_abs. cbv zeta.
  destruct (Js.leb (Qabs (value - 0.5)) 0.007) eqn:E.
  - apply leb_true_iff in E. split; auto.
  - apply leb_false_iff in E. split.
    + destruct (Js.leb _ 0.04); [discriminate|].
      destruct (Js.leb _ 0.1); discriminate.
    + intros H. lra.
Qed.

(** X2. The confidence is 100 exactly when the optimizer classifies every
    metric of the bias as OPTIMAL, that is when all five components are
    within 0.007 of 0.5. *)
Theorem calculateConfidence_full_iff_all_optimal :
  forall b : CarBias.t,
    SetupCalculator.calculateConfidence b == 100
    <-> forall metric : Biasfeedback.key,
        Biasfeedback.get (IterativeOptimizer.generateFeedback b) metric
        = OPTIMAL.
Proof.
  intros b. rewrite calculateConfidence_penalties.
  pose proof (penalty_bounds (CarBias.oversteer b)) as Bo.
  pose proof (penalty_bounds (CarBias.brakingStability b)) as Bb.
  pose proof (penalty_bounds (CarBias.cornering b)) as Bc.
  pose proof (penalty_bounds (CarBias.traction b)) as Bt.
  pose proof (penalty_bounds (CarBias.straights b)) as Bs.
  split.
  - intros H.
    assert (Hsum : Spec.penalty (CarBias.oversteer b)
                   + Spec.penalty (CarBias.brakingStability b)
                   + Spec.penalty (CarBias.cornering b)
                   + Spec.penalty (CarBias.traction b)
                   + Spec.penalty (CarBias.straights b) <= 0).
    { match type of H with
      | Qmax 0 ?x == 100 =>
          destruct (Q.max_spec 0 x) as [[_ E]|[_ E]]; rewrite E in H; lra
      end. }
    intros metric. destruct metric; cbn [Biasfeedback.get
      IterativeOptimizer.generateFeedback Biasfeedback.oversteer
      Biasfeedback.brakingStability Biasfeedback.cornering
      Biasfeedback.traction Biasfeedback.straights];
      apply classifyBiasMetric_OPTIMAL_iff, penalty_zero_iff; lra.
  - intros H.
    pose proof (H Biasfeedback.k_oversteer) as Ho.
    pose proof (H Biasfeedback.k_brakingStability) as Hb.
    pose proof (H Biasfeedback.k_cornering) as Hc.
    pose proof (H Biasfeedback.k_traction) as Ht.
    pose proof (H Biasfeedback.k_straights) as Hs.
    cbn [Biasfeedback.get IterativeOptimizer.generateFeedback
         Biasfeedback.oversteer Biasfeedback.brakingStability
         Biasfeedback.cornering Biasfeedback.traction Biasfeedback.straights]
      in Ho, Hb, Hc, Ht, Hs.
    apply classifyBiasMetric_OPTIMAL_iff, penalty_zero_iff in Ho, Hb, Hc, Ht, Hs.
    rewrite Ho, Hb, Hc, Ht, Hs. apply Q.max_r. lra.
Qed.

(** X3. A bias whose every component is at least as far from 0.5 has a
    confidence that is no higher. *)
Theorem calculateConfidence_monotone :
  forall b b' : CarBias.t,
    Forall2 Qle (Props.distances b) (Props.distances b') ->
    SetupCalculator.calculateConfidence b'
    <= SetupCalculator.calculateConfidence b.
Proof.
  intros [o bs c t s] [o' bs' c' t' s'] H.
  unfold Props.distances, Spec.biasVector in H. cbn [map] in H.
  cbn [CarBias.oversteer CarBias.brakingStability CarBias.cornering
       CarBias.traction CarBias.straights] in H.
  inversion H as [|? ? ? ? Ho H1]; subst; clear H.
  inversion H1 as [|? ? ? ? Hb H2]; subst; clear H1.
  inversion H2 as [|? ? ? ? Hc H3]; subst; clear H2.
  inversion H3 as [|? ? ? ? Ht H4]; subst; clear H3.
  inversion H4 as [|? ? ? ? Hs _]; subst; clear H4.
  rewrite !calculateConfidence_penalties.
  cbn [CarBias.oversteer CarBias.brakingStability CarBias.cornering
       CarBias.traction CarBias.straights].
  apply penalty_monotone in Ho, Hb, Hc, Ht, Hs.
  apply Q.max_le_compat_l. lra.
Qed.

Lemma calculateConfidence_monotone_witness :
  SetupCalculator.calculateConfidence (CarBias.mk 0.5 0.45 0.2 0.25 1.0)
  <= SetupCalculator.calculateConfidence (CarBias.mk 0.5 0.45 0.5 0.45 0.6).
Proof.
  apply calculateConfidence_monotone.
  repeat (constructor; [vm_compute; discriminate|]). constructor.
Defined.

(** X4. The coefficient matrix is nonsingular: two setups with the same bias
    are the same setup. *)
Theorem calculateBias_injective :
  forall (a b : SetupParameters.t) (ba bb : CarBias.t),
    SetupCalculator.calculateBias a = Ok ba ->
    SetupCalculator.calculateBias b = Ok bb ->
    Forall2 Qeq (Spec.biasVector ba) (Spec.biasVector bb) ->
    Forall2 Qeq (Spec.setupVector a) (Spec.setupVector b).
Proof.
  intros [a1 a2 a3 a4 a5] [b1 b2 b3 b4 b5] ba bb Ha Hb H.
  injection Ha as <-. injection Hb as <-.
  unfold Spec.biasVector, Spec.setupVector in *.
  cbn -[Qplus Qmult Qminus] in H.
  inversion H as [|? ? ? ? E1 H1]; subst; clear H.
  inversion H1 as [|? ? ? ? E2 H2]; subst; clear H1.
  inversion H2 as [|? ? ? ? E3 H3]; subst; clear H2.
  inversion H3 as [|? ? ? ? E4 H4]; subst; clear H3.
  inversion H4 as [|? ? ? ? E5 _]; subst; clear H4.
  cbn [SetupParameters.frontWingAngle SetupParameters.rearWingAngle
       SetupParameters.antiRollDistribution SetupParameters.tyreCamber
       SetupParameters.toeOut].
  repeat (constructor; [lra|]). constructor.
Qed.

Lemma calculateBias_injective_witness :
  Forall2 Qeq (Spec.setupVector Examples.ones)
          (Spec.setupVector (SetupParameters.mk 1.0 1.0 1.0 1.0 1.0)).
Proof.
  eapply calculateBias_injective; [reflexivity | reflexivity |].
  repeat (constructor; [vm_compute; reflexivity|]). constructor.
Defined.

Lemma in_range_confidence_le_96 :
  forall (s : SetupParameters.t) (b : CarBias.t),
    Props.in_range s ->
    SetupCalculator.calculateBias s = Ok b ->
    SetupCalculator.calculateConfidence b <= 96.
Proof.
  intros [s1 s2 s3 s4 s5] b Hr Hb. injection Hb as <-.
  unfold Props.in_range, Spec.setupVector in Hr.
  cbn [SetupParameters.frontWingAngle SetupParameters.rearWingAngle
       SetupParameters.antiRollDistribution SetupParameters.tyreCamber
       SetupParameters.toeOut] in Hr.
  inversion Hr as [|? ? R1 H1]; subst; clear Hr.
  inversion H1 as [|? ? R2 H2]; subst; clear H1.
  inversion H2 as [|? ? R3 H3]; subst; clear H2.
  inversion H3 as [|? ? R4 H4]; subst; clear H3.
  inversion H4 as [|? ? R5 _]; subst; clear H4.
  rewrite calculateConfidence_penalties.
  cbn -[Qplus Qmult Qminus Spec.penalty].
  match goal with
  | |- Qmax 0 (100 - (Spec.penalty ?o + Spec.penalty ?bs + Spec.penalty ?c
                      + Spec.penalty ?t + Spec.penalty ?st)) <= _ =>
      pose proof (penalty_bounds o) as Bo;
      pose proof (penalty_bounds bs) as Bb;
      pose proof (penalty_bounds c) as Bc;
      pose proof (penalty_bounds t) as Bt;
      pose proof (penalty_bounds st) as Bs;
      pose proof (abs_facts (o - 0.5)) as Ao;
      pose proof (abs_facts (bs - 0.5)) as Ab;
      pose proof (abs_facts (c - 0.5)) as Ac;
      pose proof (abs_facts (t - 0.5)) as At;
      pose proof (abs_facts (st - 0.5)) as As;
      destruct (penalty_lower o) as [Lo|Lo];
      destruct (penalty_lower bs) as [Lb|Lb];
      destruct (penalty_lower c) as [Lc|Lc];
      destruct (penalty_lower t) as [Lt|Lt];
      destruct (penalty_lower st) as [Ls|Ls];
      generalize dependent (Spec.penalty o);
      generalize dependent (Spec.penalty bs);
      generalize dependent (Spec.penalty c);
      generalize dependent (Spec.penalty t);
      generalize dependent (Spec.penalty st);
      generalize dependent (Qabs (o - 0.5));
      generalize dependent (Qabs (bs - 0.5));
      generalize dependent (Qabs (c - 0.5));
      generalize dependent (Qabs (t - 0.5));
      generalize dependent (Qabs (st - 0.5))
  end;
  intros; apply Q.max_lub; lra.
Qed.

(** X5. No setup with all components in [0, 1] is predicted a confidence
    above 96: the bias 0.5 on all five metrics is out of reach of the
    sliders. *)
Theorem predictConfidence_in_range_bound :
  forall s : SetupParameters.t,
    Props.in_range s ->
    exists confidence,
      IterativeOptimizer.predictConfidence s = Ok confidence
      /\ 0 <= confidence <= 96.
Proof.
  intros s Hr. destruct (calculateBias_Ok s) as [b Hb].
  exists (SetupCalculator.calculateConfidence b). split.
  - unfold IterativeOptimizer.predictConfidence. rewrite Hb. reflexivity.
  - split; [|exact (in_range_confidence_le_96 s b Hr Hb)].
    unfold SetupCalculator.calculateConfidence, Js.Math_max.
    apply Q.le_max_l.
Qed.

Lemma predictConfidence_in_range_bound_witness :
  exists confidence,
    IterativeOptimizer.predictConfidence Spec.mid = Ok confidence
    /\ 0 <= confidence <= 96.
Proof.
  apply predictConfidence_in_range_bound.
  repeat (constructor; [split; vm_compute; discriminate|]). constructor.
Defined.

(** ** Whole-vector classification *)

Lemma classifyBiasMetric_at_least (value : Q) :
  ((1 <= Spec.ordinal (IterativeOptimizer.classifyBiasMetric value))%Z
   <-> Qabs (value - 0.5) <= 0.1)
  /\ ((2 <= Spec.ordinal (IterativeOptimizer.classifyBiasMetric value))%Z
      <-> Qabs (value - 0.5) <= 0.04)
  /\ ((3 <= Spec.ordinal (IterativeOptimizer.classifyBiasMetric value))%Z
      <-> Qabs (value - 0.5) <= 0.007).
Proof.
  unfold IterativeOptimizer.classifyBiasMetric, Js.Math_abs. cbv zeta.
  destruct (Js.leb (Qabs (value - 0.5)) 0.007) eqn:E1;
    [apply leb_true_iff in E1 | apply leb_false_iff in E1];
    (destruct (Js.leb (Qabs (value - 0.5)) 0.04) eqn:E2;
     [apply leb_true_iff in E2 | apply leb_false_iff in E2]);
    (destruct (Js.leb (Qabs (value - 0.5)) 0.1) eqn:E3;
     [apply leb_true_iff in E3 | apply leb_false_iff in E3]);
    cbn [Spec.ordinal];
    repeat split; intros; try lia; try lra.
Qed.

(** The mean distance [classifyFeedback] compares with its thresholds. *)
Lemma classifyFeedback_at_least (b : CarBias.t) :
  let avg := Spec.sum (Props.distances b) / 5 in
  ((1 <= Spec.ordinal (SetupCalculator.classifyFeedback b))%Z <-> avg <= 0.1)
  /\ ((2 <= Spec.ordinal (SetupCalculator.classifyFeedback b))%Z
      <-> avg <= 0.04)
  /\ ((3 <= Spec.ordinal (SetupCalculator.classifyFeedback b))%Z
      <-> avg <= 0.007).
Proof.
  destruct b as [o bs c t s]. cbv zeta.
  unfold SetupCalculator.classifyFeedback, Props.distances, Spec.biasVector,
    Spec.sum, Js.Math_abs, SetupCalculator.tolerances.optimal,
    SetupCalculator.tolerances.great, SetupCalculator.tolerances.good.
  cbn [map fold_right fold_left hd tl length CarBias.oversteer
       CarBias.brakingStability CarBias.cornering CarBias.traction
       CarBias.straights].
  change (Js.number 5) with (5 : Q).
  set (do := Qabs (o - 0.5)). set (db := Qabs (bs - 0.5)).
  set (dc := Qabs (c - 0.5)). set (dt := Qabs (t - 0.5)).
  set (ds := Qabs (s - 0.5)).
  assert (E : (do + db + dc + dt + ds) / 5
              == (do + (db + (dc + (dt + (ds + 0))))) / 5) by field.
  rewrite <- E. clear E.
  set (avg := (do + db + dc + dt + ds) / 5).
  destruct (Js.leb avg 0.007) eqn:E1;
    [apply leb_true_iff in E1 | apply leb_false_iff in E1];
    (destruct (Js.leb avg 0.04) eqn:E2;
     [apply leb_true_iff in E2 | apply leb_false_iff in E2]);
    (destruct (Js.leb avg 0.1) eqn:E3;
     [apply leb_true_iff in E3 | apply leb_false_iff in E3]);
    cbn [Spec.ordinal];
    repeat split; intros; try lia; try lra.
Qed.

(** X6. The overall classification of a bias vector is never worse than the
    worst of the five per-metric classifications of the optimizer. *)
Theorem classifyFeedback_at_least_worst_metric :
  forall (b : CarBias.t) (level : FeedbackType),
    (forall metric : Biasfeedback.key,
        (Spec.ordinal level
         <= Spec.ordinal
              (Biasfeedback.get (IterativeOptimizer.generateFeedback b) metric))%Z) ->
    (Spec.ordinal level <= Spec.ordinal (SetupCalculator.classifyFeedback b))%Z.
Proof.
  intros b level H.
  pose proof (H Biasfeedback.k_oversteer) as Ho.
  pose proof (H Biasfeedback.k_brakingStability) as Hb.
  pose proof (H Biasfeedback.k_cornering) as Hc.
  pose proof (H Biasfeedback.k_traction) as Ht.
  pose proof (H Biasfeedback.k_straights) as Hs.
  clear H.
  cbn [Biasfeedback.get IterativeOptimizer.generateFeedback
       Biasfeedback.oversteer Biasfeedback.brakingStability
       Biasfeedback.cornering Biasfeedback.traction Biasfeedback.straights]
    in Ho, Hb, Hc, Ht, Hs.
  destruct (classifyBiasMetric_at_least (CarBias.oversteer b))
    as (Ao1 & Ao2 & Ao3).
  destruct (classifyBiasMetric_at_least (CarBias.brakingStability b))
    as (Ab1 & Ab2 & Ab3).
  destruct (classifyBiasMetric_at_least (CarBias.cornering b))
    as (Ac1 & Ac2 & Ac3).
  destruct (classifyBiasMetric_at_least (CarBias.traction b))
    as (At1 & At2 & At3).
  destruct (classifyBiasMetric_at_least (CarBias.straights b))
    as (As1 & As2 & As3).
  destruct (classifyFeedback_at_least b) as (F1 & F2 & F3).
  cbv zeta in F1, F2, F3.
  unfold Props.distances, Spec.biasVector, Spec.sum in F1, F2, F3.
  cbn [map fold_right] in F1, F2, F3.
  assert (Hdiv : forall x t : Q, x <= 5 * t -> x / 5 <= t).
  { intros x t Hx. apply Qle_shift_div_r; lra. }
  destruct level; cbn [Spec.ordinal] in *.
  - apply F3, Hdiv.
    apply Ao3 in Ho. apply Ab3 in Hb. apply Ac3 in Hc. apply At3 in Ht.
    apply As3 in Hs. lra.
  - apply F2, Hdiv.
    apply Ao2 in Ho. apply Ab2 in Hb. apply Ac2 in Hc. apply At2 in Ht.
    apply As2 in Hs. lra.
  - apply F1, Hdiv.
    apply Ao1 in Ho. apply Ab1 in Hb. apply Ac1 in Hc. apply At1 in Ht.
    apply As1 in Hs. lra.
  - destruct (SetupCalculator.classifyFeedback b); cbn [Spec.ordinal]; lia.
Qed.

Lemma classifyFeedback_at_least_worst_metric_witness :
  (Spec.ordinal GOOD
   <= Spec.ordinal
        (SetupCalculator.classifyFeedback (CarBias.mk 0.5 0.45 0.55 0.42 0.5)))%Z.
Proof.
  apply classifyFeedback_at_least_worst_metric.
  intros metric. destruct metric; vm_compute; discriminate.
Defined.


(** ** The grid search *)

Lemma for_le_from_In (fuel start limit step i : nat) :
  In i (Js.for_le_from fuel start limit step) -> (start <= i <= limit)%nat.
Proof.
  revert start. induction fuel as [|fuel IH]; intros start; cbn [Js.for_le_from].
  - intros [].
  - destruct (start <=? limit)%nat eqn:E; [|intros []].
    apply Nat.leb_le in E. intros [<-|H]; [lia|].
    apply IH in H. lia.
Qed.

Lemma level_in_unit_interval (i steps : nat) :
  (0 < steps)%nat ->
  In i (Js.for_le 0 steps 1) \/ In i (Js.for_le 0 steps 2) ->
  0 <= Js.number i / Js.number steps <= 1.
Proof.
  intros Hs Hi.
  assert (Hle : (i <= steps)%nat).
  { destruct Hi as [Hi|Hi]; apply for_le_from_In in Hi; lia. }
  unfold Js.number.
  assert (Hn : 0 < inject_Z (Z.of_nat steps)).
  { rewrite <- (Zlt_Qlt 0). lia. }
  assert (Hi0 : 0 <= inject_Z (Z.of_nat i)).
  { rewrite <- (Zle_Qle 0). lia. }
  assert (Hin : inject_Z (Z.of_nat i) <= inject_Z (Z.of_nat steps)).
  { rewrite <- Zle_Qle. lia. }
  split.
  - apply Qle_shift_div_l; [exact Hn | lra].
  - apply Qle_shift_div_r; [exact Hn | lra].
Qed.

Lemma flat_map_length_const {A B : Type} (f : A -> list B) (k : nat)
      (l : list A) :
  (forall x, length (f x) = k) -> length (flat_map f l) = (length l * k)%nat.
Proof.
  intros H. induction l as [|x l IH]; cbn [flat_map length]; [reflexivity|].
  rewrite length_app, H, IH. lia.
Qed.

Lemma generateAllCombinations_length :
  length SetupCalculator.generateAllCombinations
  = (21 * 21 * 21 * 21 * 21)%nat.
Proof.
  unfold SetupCalculator.generateAllCombinations. cbv zeta.
  set (levels := Js.for_le 0 20 1).
  assert (Hl : length levels = 21%nat) by reflexivity.
  rewrite (flat_map_length_const _ (21 * 21 * 21 * 21)%nat);
    [rewrite Hl; lia|]. intros fw.
  rewrite (flat_map_length_const _ (21 * 21 * 21)%nat);
    [rewrite Hl; lia|]. intros rw.
  rewrite (flat_map_length_const _ (21 * 21)%nat);
    [rewrite Hl; lia|]. intros ar.
  rewrite (flat_map_length_const _ 21%nat); [rewrite Hl; lia|]. intros tc.
  rewrite (flat_map_length_const _ 1%nat); [rewrite Hl; lia|]. intros to.
  reflexivity.
Qed.

Lemma generateAllCombinations_in_range :
  Forall Props.in_range SetupCalculator.generateAllCombinations.
Proof.
  unfold SetupCalculator.generateAllCombinations. cbv zeta.
  apply Forall_forall. intros s Hs.
  apply in_flat_map in Hs. destruct Hs as (fw & Hfw & Hs).
  apply in_flat_map in Hs. destruct Hs as (rw & Hrw & Hs).
  apply in_flat_map in Hs. destruct Hs as (ar & Har & Hs).
  apply in_flat_map in Hs. destruct Hs as (tc & Htc & Hs).
  apply in_flat_map in Hs. destruct Hs as (to & Hto & Hs).
  destruct Hs as [<-|[]].
  unfold Props.in_range, Spec.setupVector.
  cbn [SetupParameters.frontWingAngle SetupParameters.rearWingAngle
       SetupParameters.antiRollDistribution SetupParameters.tyreCamber
       SetupParameters.toeOut].
  repeat (constructor;
          [apply level_in_unit_interval; [lia | left; assumption]|]).
  constructor.
Qed.

(** X8. The grid of [generateAllCombinations] has 21^5 = 4084101 points, and
    every one of them is a setup with all components in [0, 1]. *)
Theorem generateAllCombinations_grid :
  Z.of_nat (length SetupCalculator.generateAllCombinations) = 4084101%Z
  /\ Forall Props.in_range SetupCalculator.generateAllCombinations.
Proof.
  split.
  - rewrite generateAllCombinations_length. lia.
  - exact generateAllCombinations_in_range.
Qed.

Lemma bias_of_Ok (s : SetupParameters.t) :
  SetupCalculator.calculateBias s = Ok (Props.bias_of s).
Proof. reflexivity. Qed.

Lemma admittedb_iff (feedback : option Biasfeedback.t)
      (s : SetupParameters.t) :
  Props.admittedb feedback s = true <-> Props.admitted feedback s.
Proof.
  destruct feedback as [f|]; cbn [Props.admittedb Props.admitted];
    [|split; auto].
  unfold Props.meets. cbn [forallb]. rewrite !andb_true_iff. split.
  - intros (Ho & Hb & Hc & Ht & Hs & _) metric. destruct metric; assumption.
  - intros H. repeat split; apply H.
Qed.

Section SortByKey.

Context {A : Type} (key : A -> Q).

Lemma sort_insert_descending (x : A) (l : list A) :
  Props.descending key l ->
  Props.descending key (Js.sort_insert (fun a b => key b - key a) x l).
Proof.
  unfold Props.descending.
  induction l as [|y l IH]; intros Hs; cbn [Js.sort_insert].
  - constructor; constructor.
  - apply StronglySorted_inv in Hs. destruct Hs as [Hl Hy].
    destruct (Js.gtb (key y - key x) 0) eqn:E.
    + apply gtb_true_iff in E.
      constructor; [apply IH, Hl|].
      eapply Permutation_Forall; [apply sort_insert_Permutation|].
      constructor; [lra | exact Hy].
    + apply gtb_false_iff in E.
      constructor; [constructor; assumption|].
      constructor; [lra|].
      eapply Forall_impl; [|exact Hy]. cbn beta. intros z Hz. lra.
Qed.

Lemma sort_descending (l : list A) :
  Props.descending key (Js.sort (fun a b => key b - key a) l).
Proof.
  unfold Js.sort. induction l as [|x l IH]; cbn [fold_right].
  - constructor.
  - apply sort_insert_descending, IH.
Qed.

(** Sorting a list that is in order already changes nothing. *)
Lemma sort_descending_fixpoint (l : list A) :
  Props.descending key l -> Js.sort (fun a b => key b - key a) l = l.
Proof.
  unfold Js.sort, Props.descending.
  induction l as [|x l IH]; intros Hs; cbn [fold_right]; [reflexivity|].
  apply StronglySorted_inv in Hs. destruct Hs as [Hl Hx].
  rewrite (IH Hl). destruct l as [|y l']; [reflexivity|].
  cbn [Js.sort_insert]. apply Forall_inv in Hx.
  destruct (Js.gtb (key y - key x) 0) eqn:E; [|reflexivity].
  apply gtb_true_iff in E. lra.
Qed.

Lemma descending_app (l1 l2 : list A) :
  Props.descending key (l1 ++ l2) ->
  Props.descending key l1
  /\ forall a b, In a l1 -> In b l2 -> key b <= key a.
Proof.
  unfold Props.descending. induction l1 as [|x l1 IH]; cbn [app]; intros Hs.
  - split; [constructor | intros a b []].
  - apply StronglySorted_inv in Hs. destruct Hs as [Hl Hx].
    destruct (IH Hl) as [Hl1 Hcross]. split.
    + constructor; [exact Hl1|].
      apply Forall_app in Hx. apply Hx.
    + intros a b [<-|Ha] Hb.
      * apply Forall_app in Hx. destruct Hx as [_ Hx].
        rewrite Forall_forall in Hx. apply Hx, Hb.
      * apply Hcross; assumption.
Qed.

End SortByKey.

Lemma descending_map {A B : Type} (f : A -> B) (key : B -> Q) (l : list A) :
  Props.descending (fun a => key (f a)) l ->
  Props.descending key (map f l).
Proof.
  unfold Props.descending. induction 1 as [|x l Hl IH Hx]; cbn [map].
  - constructor.
  - constructor; [exact IH|].
    apply Forall_map. exact Hx.
Qed.

Lemma findOptimalSetup_fold (feedback : option Biasfeedback.t) :
  forall (l : list SetupParameters.t)
         (acc : list (SetupParameters.t * Q)),
    result_fold
      (fun validSetups setup =>
         (bias <- SetupCalculator.calculateBias setup ;;
          let confidence := SetupCalculator.calculateConfidence bias in
          match feedback with
          | Some feedback =>
              let setupFeedback := SetupCalculator.isolatedFeedback bias in
              let matchesFeedback :=
                SetupCalculator.feedbackMatches
                  (Biasfeedback.oversteer setupFeedback)
                  (Biasfeedback.oversteer feedback)
                && SetupCalculator.feedbackMatches
                     (Biasfeedback.brakingStability setupFeedback)
                     (Biasfeedback.brakingStability feedback)
                && SetupCalculator.feedbackMatches
                     (Biasfeedback.cornering setupFeedback)
                     (Biasfeedback.cornering feedback)
                && SetupCalculator.feedbackMatches
                     (Biasfeedback.traction setupFeedback)
                     (Biasfeedback.traction feedback)
                && SetupCalculator.feedbackMatches
                     (Biasfeedback.straights setupFeedback)
                     (Biasfeedback.straights feedback) in
              if matchesFeedback
              then Ok (validSetups ++ [(setup, confidence)])
              else Ok validSetups
          | None => Ok (validSetups ++ [(setup, confidence)])
          end)%result)
      l acc
    = Ok (acc ++ map (fun s => (s, Props.confidence_of s))
                     (filter (Props.admittedb feedback) l)).
Proof.
  induction l as [|s l IH]; intros acc; cbn [result_fold filter map].
  - rewrite app_nil_r. reflexivity.
  - rewrite (bias_of_Ok s). cbn [result_bind]. cbv zeta in IH |- *.
    destruct feedback as [f|]; cbn [Props.admittedb].
    + cbn [forallb Biasfeedback.get].
      rewrite andb_true_r, !andb_assoc.
      match goal with
      | |- context [if ?c then Ok _ else Ok _] => destruct c
      end; cbn [result_bind].
      * rewrite IH. cbn [map]. rewrite <- app_assoc.
        unfold Props.confidence_of. cbn [app]. reflexivity.
      * apply IH.
    + cbn [result_bind]. rewrite IH. cbn [map]. rewrite <- app_assoc.
      unfold Props.confidence_of. cbn [app]. reflexivity.
Qed.

Lemma findOptimalSetup_eq (feedback : option Biasfeedback.t) :
  SetupCalculator.findOptimalSetup feedback
  = Ok (map fst
          (firstn 10
             (Js.sort (fun a b => snd b - snd a)
                (map (fun s => (s, Props.confidence_of s))
                   (filter (Props.admittedb feedback)
                      SetupCalculator.generateAllCombinations))))).
Proof.
  unfold SetupCalculator.findOptimalSetup. cbv zeta.
  rewrite findOptimalSetup_fold. cbn [result_bind app]. reflexivity.
Qed.

(** The first [n] elements of a list sorted by descending key. *)
Lemma sorted_prefix {A : Type} (key : A -> Q) (valid : list A) (n : nat) :
  forall top : list A,
    top = firstn n (Js.sort (fun a b => key b - key a) valid) ->
    length top = Nat.min n (length valid)
    /\ (forall p, In p top -> In p valid)
    /\ Props.descending key top
    /\ (forall p, In p valid ->
                  In p top \/ forall r, In r top -> key p <= key r).
Proof.
  intros top ->.
  pose proof (sort_Permutation (fun a b => key b - key a) valid) as Hperm.
  pose proof (sort_descending key valid) as Hsorted.
  revert Hperm Hsorted.
  generalize (Js.sort (fun a b => key b - key a) valid). intros sorted Hperm Hsorted.
  rewrite <- (firstn_skipn n sorted) in Hsorted.
  apply descending_app in Hsorted. destruct Hsorted as [Hfirst Hcross].
  split; [|split; [|split]].
  - rewrite length_firstn, (Permutation_length Hperm). reflexivity.
  - intros p Hp. apply (Permutation_in _ (Permutation_sym Hperm)).
    rewrite <- (firstn_skipn n sorted). apply in_or_app. left. exact Hp.
  - exact Hfirst.
  - intros p Hp. apply (Permutation_in _ Hperm) in Hp.
    rewrite <- (firstn_skipn n sorted) in Hp. apply in_app_or in Hp.
    destruct Hp as [Hp|Hp]; [left; exact Hp|].
    right. intros r Hr. apply (Hcross r p Hr Hp).
Qed.

(** What the prefix lemma gives for pairs of an element and its key. *)
Lemma scored_prefix {A : Type} (conf : A -> Q) (keep : A -> bool)
      (grid : list A) (top : list (A * Q)) :
  top = firstn 10
          (Js.sort (fun a b => snd b - snd a)
             (map (fun s => (s, conf s)) (filter keep grid))) ->
  length (map fst top) = Nat.min 10 (length (filter keep grid))
  /\ Forall (fun s => In s grid /\ keep s = true) (map fst top)
  /\ Props.descending conf (map fst top)
  /\ forall s,
      In s grid -> keep s = true ->
      In s (map fst top)
      \/ forall r, In r (map fst top) ->
                   conf s <= conf r.
Proof.
  intros Htop.
  destruct (sorted_prefix snd _ 10 top Htop) as (Hlen & Hin & Hdesc & Hbest).
  clear Htop.
  assert (Helem : forall p, In p top ->
                            In (fst p) grid
                            /\ keep (fst p) = true
                            /\ snd p = conf (fst p)).
  { intros p Hp. apply Hin in Hp. apply in_map_iff in Hp.
    destruct Hp as (s & <- & Hs). apply filter_In in Hs.
    destruct Hs as [Hg Ha]. cbn [fst snd]. repeat split; assumption. }
  split; [|split; [|split]].
  - rewrite length_map, Hlen, length_map. reflexivity.
  - apply Forall_forall. intros s Hs. apply in_map_iff in Hs.
    destruct Hs as (p & <- & Hp).
    destruct (Helem p Hp) as (Hg & Ha & _). split; assumption.
  - apply descending_map. unfold Props.descending in *.
    clear Hlen Hin Hbest.
    induction Hdesc as [|x l Hl IH Hx]; constructor.
    + apply IH. intros p Hp. apply Helem. right. exact Hp.
    + rewrite Forall_forall in *. intros y Hy.
      destruct (Helem x) as (_ & _ & <-); [left; reflexivity|].
      destruct (Helem y) as (_ & _ & <-); [right; exact Hy|].
      apply Hx, Hy.
  - intros s Hg Ha.
    destruct (Hbest (s, conf s)) as [Hs|Hs].
    + apply in_map_iff. exists s. split; [reflexivity|].
      apply filter_In. split; assumption.
    + left. apply in_map_iff. exists (s, conf s).
      split; [reflexivity | exact Hs].
    + right. intros r Hr. apply in_map_iff in Hr.
      destruct Hr as (p & <- & Hp).
      destruct (Helem p Hp) as (_ & _ & <-).
      pose proof (Hs p Hp) as Hc. cbn [snd] in Hc. exact Hc.
Qed.

Lemma findOptimalSetup_returns (feedback : option Biasfeedback.t) :
  exists l,
    SetupCalculator.findOptimalSetup feedback = Ok l
    /\ length l
       = Nat.min 10
           (length (filter (Props.admittedb feedback)
                           SetupCalculator.generateAllCombinations))
    /\ Forall (fun s => In s SetupCalculator.generateAllCombinations
                        /\ Props.admitted feedback s) l
    /\ Props.descending Props.confidence_of l
    /\ forall s,
        In s SetupCalculator.generateAllCombinations ->
        Props.admitted feedback s ->
        In s l \/ forall r, In r l ->
                            Props.confidence_of s <= Props.confidence_of r.
Proof.
  eexists. split; [apply findOptimalSetup_eq|].
  destruct (scored_prefix Props.confidence_of (Props.admittedb feedback)
              SetupCalculator.generateAllCombinations _ eq_refl)
    as (Hlen & Hin & Hdesc & Hbest).
  split; [exact Hlen|]. split; [|split; [exact Hdesc|]].
  - eapply Forall_impl; [|exact Hin]. cbn beta. intros s [Hg Ha].
    split; [exact Hg | apply admittedb_iff, Ha].
  - intros s Hg Ha. apply Hbest; [exact Hg | apply admittedb_iff, Ha].
Qed.

(** X9. Without feedback [findOptimalSetup] returns ten grid points in
    descending order of confidence, and no grid point left out has a higher
    confidence than one returned. *)
Theorem findOptimalSetup_unconstrained :
  exists l,
    SetupCalculator.findOptimalSetup None = Ok l
    /\ length l = 10%nat
    /\ Forall (fun s => In s SetupCalculator.generateAllCombinations
                        /\ Props.in_range s) l
    /\ Props.descending Props.confidence_of l
    /\ forall s,
        In s SetupCalculator.generateAllCombinations ->
        In s l \/ forall r, In r l ->
                            Props.confidence_of s <= Props.confidence_of r.
Proof.
  destruct (findOptimalSetup_returns None) as (l & Hl & Hlen & Hin & Hd & Hbest).
  exists l. split; [exact Hl|]. split; [|split; [|split]].
  - rewrite Hlen. cbn [Props.admittedb].
    assert (E : forall l' : list SetupParameters.t,
               filter (fun _ => true) l' = l').
    { induction l' as [|x l' IH]; cbn [filter]; [|rewrite IH]; reflexivity. }
    rewrite E. rewrite generateAllCombinations_length. lia.
  - eapply Forall_impl; [|exact Hin]. cbn beta. intros s [Hg _].
    split; [exact Hg|].
    pose proof generateAllCombinations_in_range as Hr.
    rewrite Forall_forall in Hr. apply Hr, Hg.
  - exact Hd.
  - intros s Hs. apply Hbest; [exact Hs | exact I].
Qed.

(** X10. With feedback [findOptimalSetup] returns at most ten grid points,
    each within one level of the feedback on every metric when classified
    metric by metric, in descending order of confidence; no such grid point
    left out has a higher confidence than one returned. *)
Theorem findOptimalSetup_constrained :
  forall feedback : Biasfeedback.t,
  exists l,
    SetupCalculator.findOptimalSetup (Some feedback) = Ok l
    /\ (length l <= 10)%nat
    /\ Forall (fun s => In s SetupCalculator.generateAllCombinations
                        /\ Props.in_range s
                        /\ Props.meets feedback s) l
    /\ Props.descending Props.confidence_of l
    /\ forall s,
        In s SetupCalculator.generateAllCombinations ->
        Props.meets feedback s ->
        In s l \/ forall r, In r l ->
                            Props.confidence_of s <= Props.confidence_of r.
Proof.
  intros feedback.
  destruct (findOptimalSetup_returns (Some feedback))
    as (l & Hl & Hlen & Hin & Hd & Hbest).
  exists l. split; [exact Hl|]. split; [|split; [|split]].
  - rewrite Hlen. apply Nat.le_min_l.
  - eapply Forall_impl; [|exact Hin]. cbn beta. intros s [Hg Hm].
    split; [exact Hg|]. split; [|exact Hm].
    pose proof generateAllCombinations_in_range as Hr.
    rewrite Forall_forall in Hr. apply Hr, Hg.
  - exact Hd.
  - exact Hbest.
Qed.

(* ================================================================== *)
(** * Further properties of the matrices *)
(* ================================================================== *)

Lemma map_nth_seq {A : Type} (l : list A) (default : A) :
  map (fun i => nth i l default) (seq 0 (length l)) = l.
Proof.
  induction l as [|x l IH]; cbn [length seq map nth]; [reflexivity|].
  f_equal. rewrite <- seq_shift, map_map. exact IH.
Qed.

Lemma rectangular_columns (m : SimpleMatrix.t) (r c : nat) :
  Props.rectangular m r c -> (0 < r)%nat ->
  SimpleMatrix.rows m = r /\ SimpleMatrix.columns m = c.
Proof.
  intros (Hm & Hr & Hc) Hpos. rewrite Hm.
  destruct (SimpleMatrix.data m) as [|row d]; cbn [length] in Hr; [lia|].
  cbn [SimpleMatrix.new SimpleMatrix.rows SimpleMatrix.columns length].
  split; [exact Hr | exact (Forall_inv Hc)].
Qed.

Lemma rectangular_row (m : SimpleMatrix.t) (r c i : nat) :
  Props.rectangular m r c -> (i < r)%nat ->
  length (SimpleMatrix.getRow m i) = c.
Proof.
  intros (_ & Hr & Hc) Hi. unfold SimpleMatrix.getRow.
  rewrite Forall_forall in Hc. apply Hc, nth_In. lia.
Qed.

Lemma new_rectangular (d : list (list Q)) (c : nat) :
  Forall (fun row => length row = c) d ->
  Props.rectangular (SimpleMatrix.new d) (length d) c.
Proof.
  intros H. split; [reflexivity|]. split; [reflexivity | exact H].
Qed.

Lemma table_rectangular (f : nat -> nat -> Q) (r c : nat) :
  Props.rectangular
    (SimpleMatrix.new (map (fun i => map (fun j => f i j) (seq 0 c)) (seq 0 r)))
    r c.
Proof.
  split; [reflexivity|]. cbn [SimpleMatrix.new SimpleMatrix.data]. split.
  - rewrite length_map, length_seq. reflexivity.
  - apply Forall_forall. intros row Hrow. apply in_map_iff in Hrow.
    destruct Hrow as (i & <- & _). rewrite length_map, length_seq.
    reflexivity.
Qed.

Lemma table_get (f : nat -> nat -> Q) (r c i j : nat) :
  (i < r)%nat -> (j < c)%nat ->
  SimpleMatrix.get
    (SimpleMatrix.new (map (fun i => map (fun j => f i j) (seq 0 c)) (seq 0 r)))
    i j
  = f i j.
Proof.
  intros Hi Hj. unfold SimpleMatrix.get.
  cbn [SimpleMatrix.new SimpleMatrix.data].
  rewrite (nth_indep _ [] (map (fun j => f 0%nat j) (seq 0 c)))
    by (rewrite length_map, length_seq; exact Hi).
  rewrite (map_nth (fun i => map (fun j => f i j) (seq 0 c)) (seq 0 r) 0%nat i).
  rewrite seq_nth by exact Hi. cbn [Nat.add].
  rewrite (nth_indep _ 0 (f i 0%nat))
    by (rewrite length_map, length_seq; exact Hj).
  rewrite (map_nth (fun j => f i j) (seq 0 c) 0%nat j).
  rewrite seq_nth by exact Hj. reflexivity.
Qed.

(** X11. Transposing an [r] by [c] matrix gives the [c] by [r] matrix with
    the entries mirrored, and transposing twice gives the matrix back,
    provided it has at least one row and one column. *)
Theorem transpose_involutive :
  forall (m : SimpleMatrix.t) (r c : nat),
    Props.rectangular m r c -> (0 < r)%nat -> (0 < c)%nat ->
    Props.rectangular (SimpleMatrix.transpose m) c r
    /\ (forall i j, (i < r)%nat -> (j < c)%nat ->
                    SimpleMatrix.get (SimpleMatrix.transpose m) j i
                    = SimpleMatrix.get m i j)
    /\ SimpleMatrix.transpose (SimpleMatrix.transpose m) = m.
Proof.
  intros m r c Hm Hr Hc.
  destruct (rectangular_columns m r c Hm Hr) as [Er Ec].
  assert (Htr : SimpleMatrix.transpose m
                = SimpleMatrix.new
                    (map (fun j => map (fun i => SimpleMatrix.get m i j)
                                       (seq 0 r))
                         (seq 0 c))).
  { unfold SimpleMatrix.transpose. rewrite Er, Ec. reflexivity. }
  rewrite Htr.
  pose proof (table_rectangular (fun j i => SimpleMatrix.get m i j) c r) as Ht.
  split; [exact Ht|]. split.
  - intros i j Hi Hj.
    apply (table_get (fun j i => SimpleMatrix.get m i j) c r j i Hj Hi).
  - destruct (rectangular_columns _ c r Ht Hc) as [Er' Ec'].
    unfold SimpleMatrix.transpose. rewrite Er', Ec'.
    destruct Hm as (Hnew & Hlen & Hrows).
    transitivity (SimpleMatrix.new (SimpleMatrix.data m));
      [|symmetry; exact Hnew].
    f_equal.
    etransitivity; [|apply (map_nth_seq (SimpleMatrix.data m) [])].
    rewrite Hlen.
    apply map_ext_in. intros i Hi. apply in_seq in Hi.
    assert (Hrow : length (nth i (SimpleMatrix.data m) []) = c).
    { rewrite Forall_forall in Hrows. apply Hrows, nth_In. lia. }
    etransitivity;
      [|apply (map_nth_seq (nth i (SimpleMatrix.data m) []) 0)].
    rewrite Hrow. apply map_ext_in. intros j Hj. apply in_seq in Hj.
    rewrite (table_get (fun j i => SimpleMatrix.get m i j) c r j i)
      by lia.
    reflexivity.
Qed.

Lemma transpose_involutive_witness :
  SimpleMatrix.transpose
    (SimpleMatrix.transpose SetupCalculator.coefficientMatrix)
  = SetupCalculator.coefficientMatrix.
Proof.
  apply (transpose_involutive SetupCalculator.coefficientMatrix 5 5).
  - split; [reflexivity|]. split; [reflexivity|].
    repeat (constructor; [reflexivity|]). constructor.
  - lia.
  - lia.
Defined.

(** X12. A column of a matrix is the corresponding row of its transpose. *)
Theorem getColumn_transpose :
  forall (m : SimpleMatrix.t) (r c j : nat),
    Props.rectangular m r c -> (0 < r)%nat -> (j < c)%nat ->
    SimpleMatrix.getColumn m j
    = SimpleMatrix.getRow (SimpleMatrix.transpose m) j.
Proof.
  intros m r c j Hm Hr Hj.
  destruct (rectangular_columns m r c Hm Hr) as [Er Ec].
  unfold SimpleMatrix.getColumn, SimpleMatrix.getRow, SimpleMatrix.transpose.
  rewrite Er, Ec. cbn [SimpleMatrix.new SimpleMatrix.data].
  rewrite (nth_indep _ [] (map (fun i => SimpleMatrix.get m i 0%nat) (seq 0 r)))
    by (rewrite length_map, length_seq; exact Hj).
  rewrite (map_nth (fun j => map (fun i => SimpleMatrix.get m i j) (seq 0 r))
                   (seq 0 c) 0%nat j).
  rewrite seq_nth by exact Hj. cbn [Nat.add].
  destruct Hm as (_ & Hlen & _).
  rewrite <- (map_nth_seq (SimpleMatrix.data m) []) at 1. rewrite Hlen.
  rewrite map_map. reflexivity.
Qed.

Lemma getColumn_transpose_witness :
  SimpleMatrix.getColumn SetupCalculator.coefficientMatrix 1
  = SimpleMatrix.getRow
      (SimpleMatrix.transpose SetupCalculator.coefficientMatrix) 1.
Proof.
  apply (getColumn_transpose SetupCalculator.coefficientMatrix 5 5).
  - split; [reflexivity|]. split; [reflexivity|].
    repeat (constructor; [reflexivity|]). constructor.
  - lia.
  - lia.
Defined.

Lemma fold_left_shift (f : Q -> nat -> Q) (l : list nat) (acc : Q) :
  fold_left f (map S l) acc = fold_left (fun sum k => f sum (S k)) l acc.
Proof.
  revert acc. induction l as [|k l IH]; intros acc; cbn [map fold_left].
  - reflexivity.
  - apply IH.
Qed.

Lemma fold_left_dot (u v : list Q) :
  length u = length v ->
  forall acc : Q,
    fold_left (fun sum k => sum + nth k u 0 * nth k v 0) (seq 0 (length u)) acc
    == acc + Spec.dot u v.
Proof.
  revert v. induction u as [|a u IH]; intros [|b v] Hlen acc;
    cbn [length] in Hlen; try discriminate.
  - cbn [length seq fold_left Spec.dot]. ring.
  - cbn [length seq fold_left Spec.dot nth].
    rewrite <- seq_shift, fold_left_shift. cbn [nth].
    rewrite IH by (injection Hlen; auto). ring.
Qed.

(** X13. The product of an [r] by [n] matrix and an [n] by [p] matrix is the
    [r] by [p] matrix whose entry [(i, j)] is the dot product of row [i] of
    the first with column [j] of the second; when the inner dimensions
    differ, [mmul] raises. *)
Theorem mmul_dot_products :
  forall (a b : SimpleMatrix.t) (r n n' p : nat),
    Props.rectangular a r n -> Props.rectangular b n' p ->
    (0 < r)%nat -> (0 < n')%nat ->
    (n <> n' -> returned (SimpleMatrix.mmul a b) = false)
    /\ (n = n' ->
        exists m,
          SimpleMatrix.mmul a b = Ok m
          /\ Props.rectangular m r p
          /\ forall i j, (i < r)%nat -> (j < p)%nat ->
                         SimpleMatrix.get m i j
                         == Spec.dot (SimpleMatrix.getRow a i)
                                     (SimpleMatrix.getColumn b j)).
Proof.
  intros a b r n n' p Ha Hb Hr Hn'.
  destruct (rectangular_columns a r n Ha Hr) as [Era Eca].
  destruct (rectangular_columns b n' p Hb Hn') as [Erb Ecb].
  unfold SimpleMatrix.mmul. rewrite Era, Eca, Erb, Ecb. split.
  - intros Hne. apply Nat.eqb_neq in Hne. rewrite Hne. reflexivity.
  - intros <-. rewrite Nat.eqb_refl. cbn [negb].
    eexists. split; [reflexivity|].
    split; [apply (table_rectangular _ r p)|].
    intros i j Hi Hj.
    rewrite (table_get
               (fun i j =>
                  fold_left
                    (fun sum k =>
                       sum + SimpleMatrix.get a i k * SimpleMatrix.get b k j)
                    (seq 0 n) 0) r p i j Hi Hj).
    pose proof (rectangular_row a r n i Ha Hi) as Hrow.
    assert (Hcol : length (SimpleMatrix.getColumn b j) = n).
    { unfold SimpleMatrix.getColumn. rewrite length_map. apply Hb. }
    rewrite <- (Qplus_0_l (Spec.dot _ _)).
    rewrite <- fold_left_dot by congruence.
    rewrite Hrow.
    assert (E : forall l (acc acc' : Q),
               acc == acc' ->
               (forall k, In k l -> (k < n)%nat) ->
               fold_left
                 (fun sum k =>
                    sum + SimpleMatrix.get a i k * SimpleMatrix.get b k j)
                 l acc
               == fold_left
                    (fun sum k =>
                       sum + nth k (SimpleMatrix.getRow a i) 0
                             * nth k (SimpleMatrix.getColumn b j) 0)
                    l acc').
    { induction l as [|k l IH]; intros acc acc' Hacc Hk; cbn [fold_left].
      - exact Hacc.
      - apply IH; [|intros k' Hk'; apply Hk; right; exact Hk'].
        assert (Hkn : (k < n)%nat) by (apply Hk; left; reflexivity).
        unfold SimpleMatrix.get at 2, SimpleMatrix.getColumn.
        rewrite (nth_indep (map _ _) 0 (nth j [] 0))
          by (rewrite length_map; destruct Hb as (_ & -> & _); exact Hkn).
        rewrite (map_nth (fun row => nth j row 0) (SimpleMatrix.data b) [] k).
        unfold SimpleMatrix.get, SimpleMatrix.getRow. rewrite Hacc.
        reflexivity. }
    apply E; [reflexivity|]. intros k Hk. apply in_seq in Hk. lia.
Qed.

Lemma mmul_dot_products_witness :
  returned (SimpleMatrix.mmul (SimpleMatrix.new [[1; 2; 3]])
                              SetupCalculator.coefficientMatrix) = false
  /\ exists m,
      SimpleMatrix.mmul SetupCalculator.coefficientMatrix
                        SetupCalculator.coefficientMatrix = Ok m
      /\ Props.rectangular m 5 5.
Proof.
  assert (Hc : Props.rectangular SetupCalculator.coefficientMatrix 5 5).
  { split; [reflexivity|]. split; [reflexivity|].
    repeat (constructor; [reflexivity|]). constructor. }
  assert (Hv : Props.rectangular (SimpleMatrix.new [[1; 2; 3]]) 1 3).
  { apply (new_rectangular [[1; 2; 3]] 3).
    constructor; [reflexivity | constructor]. }
  split.
  - apply (proj1 (mmul_dot_products (SimpleMatrix.new [[1; 2; 3]])
                    SetupCalculator.coefficientMatrix 1 3 5 5
                    Hv Hc ltac:(lia) ltac:(lia))).
    lia.
  - destruct (proj2 (mmul_dot_products SetupCalculator.coefficientMatrix
                       SetupCalculator.coefficientMatrix 5 5 5 5 Hc Hc
                       ltac:(lia) ltac:(lia)) eq_refl)
      as (m & Hm & Hrect & _).
    exists m. split; assumption.
Defined.

(** X14. The difference of two [r] by [c] matrices is the [r] by [c] matrix
    of the differences of their entries; when the shapes differ, [sub]
    raises. *)
Theorem sub_entries :
  forall (a b : SimpleMatrix.t) (r c r' c' : nat),
    Props.rectangular a r c -> Props.rectangular b r' c' ->
    (0 < r)%nat -> (0 < r')%nat ->
    (r <> r' \/ c <> c' -> returned (SimpleMatrix.sub a b) = false)
    /\ (r = r' /\ c = c' ->
        exists m,
          SimpleMatrix.sub a b = Ok m
          /\ Props.rectangular m r c
          /\ forall i j, (i < r)%nat -> (j < c)%nat ->
                         SimpleMatrix.get m i j
                         = SimpleMatrix.get a i j - SimpleMatrix.get b i j).
Proof.
  intros a b r c r' c' Ha Hb Hr Hr'.
  destruct (rectangular_columns a r c Ha Hr) as [Era Eca].
  destruct (rectangular_columns b r' c' Hb Hr') as [Erb Ecb].
  unfold SimpleMatrix.sub. rewrite Era, Eca, Erb, Ecb. split.
  - intros [Hne|Hne]; apply Nat.eqb_neq in Hne; rewrite Hne;
      cbn [negb orb]; [reflexivity|].
    rewrite orb_true_r. reflexivity.
  - intros [<- <-]. rewrite !Nat.eqb_refl. cbn [negb orb].
    eexists. split; [reflexivity|].
    split; [apply (table_rectangular _ r c)|].
    intros i j Hi Hj.
    apply (table_get
             (fun i j => SimpleMatrix.get a i j - SimpleMatrix.get b i j)
             r c i j Hi Hj).
Qed.

Lemma sub_entries_witness :
  returned (SimpleMatrix.sub (SimpleMatrix.new [[1; 2; 3]])
                             SetupCalculator.coefficientMatrix) = false
  /\ exists m,
      SimpleMatrix.sub SetupCalculator.coefficientMatrix
                       SetupCalculator.coefficientMatrix = Ok m
      /\ Props.rectangular m 5 5.
Proof.
  assert (Hc : Props.rectangular SetupCalculator.coefficientMatrix 5 5).
  { split; [reflexivity|]. split; [reflexivity|].
    repeat (constructor; [reflexivity|]). constructor. }
  assert (Hv : Props.rectangular (SimpleMatrix.new [[1; 2; 3]]) 1 3).
  { apply (new_rectangular [[1; 2; 3]] 3).
    constructor; [reflexivity | constructor]. }
  split.
  - apply (proj1 (sub_entries (SimpleMatrix.new [[1; 2; 3]])
                    SetupCalculator.coefficientMatrix 1 3 5 5
                    Hv Hc ltac:(lia) ltac:(lia))).
    left. lia.
  - destruct (proj2 (sub_entries SetupCalculator.coefficientMatrix
                       SetupCalculator.coefficientMatrix 5 5 5 5 Hc Hc
                       ltac:(lia) ltac:(lia)) (conj eq_refl eq_refl))
      as (m & Hm & Hrect & _).
    exists m. split; assumption.
Defined.

(* ================================================================== *)
(** * Further properties of the optimizer *)
(* ================================================================== *)

(** ** Scores and per-metric classification *)

Lemma extreme_step_nonneg (sum val : Q) :
  0 <= sum ->
  0 <= (if Js.ltb val 0 || Js.gtb val 1
        then sum + Js.Math_abs (if Js.ltb val 0 then val else val - 1) * 50
        else sum).
Proof.
  intros Hs. destruct (Js.ltb val 0 || Js.gtb val 1); [|exact Hs].
  unfold Js.Math_abs.
  pose proof (Qabs_nonneg (if Js.ltb val 0 then val else val - 1)).
  lra.
Qed.

(** X15. A score is never negative, and it exceeds the confidence by at
    most the balance bonus of 10. *)
Theorem calculateScore_bounds :
  forall (setup : SetupParameters.t) (bias : CarBias.t) (confidence : Q),
    0 <= IterativeOptimizer.calculateScore setup bias confidence
    /\ IterativeOptimizer.calculateScore setup bias confidence
       <= Qmax 0 (confidence + 10).
Proof.
  intros [s1 s2 s3 s4 s5] [o bs c t s] confidence.
  unfold IterativeOptimizer.calculateScore. cbv zeta.
  cbn [fold_left length SetupParameters.frontWingAngle
       SetupParameters.rearWingAngle SetupParameters.antiRollDistribution
       SetupParameters.tyreCamber SetupParameters.toeOut CarBias.oversteer
       CarBias.brakingStability CarBias.cornering CarBias.traction
       CarBias.straights].
  change (Js.number 5) with (5 : Q).
  unfold Js.Math_max. split; [apply Q.le_max_l|].
  apply Q.max_le_compat_l.
  match goal with
  | |- _ - ?e <= _ =>
      assert (He : 0 <= e)
        by (repeat apply extreme_step_nonneg; apply Qle_refl);
      generalize dependent e
  end.
  intros e He. unfold Js.Math_abs.
  pose proof (Qabs_nonneg (s1 - 0.5)). pose proof (Qabs_nonneg (s2 - 0.5)).
  pose proof (Qabs_nonneg (s3 - 0.5)). pose proof (Qabs_nonneg (s4 - 0.5)).
  pose proof (Qabs_nonneg (s5 - 0.5)).
  set (total := 0 + Qabs (s1 - 0.5) + Qabs (s2 - 0.5) + Qabs (s3 - 0.5)
                + Qabs (s4 - 0.5) + Qabs (s5 - 0.5)).
  assert (Ht : 0 <= total / 5).
  { apply Qle_shift_div_l; [lra|]. unfold total. lra. }
  lra.
Qed.

(** X16. A bias component that is no farther from 0.5 is classified at
    least as well by the optimizer. *)
Theorem classifyBiasMetric_monotone :
  forall value value' : Q,
    Qabs (value - 0.5) <= Qabs (value' - 0.5) ->
    (Spec.ordinal (IterativeOptimizer.classifyBiasMetric value')
     <= Spec.ordinal (IterativeOptimizer.classifyBiasMetric value))%Z.
Proof.
  intros value value' H.
  destruct (classifyBiasMetric_at_least value) as (A1 & A2 & A3).
  destruct (classifyBiasMetric_at_least value') as (B1 & B2 & B3).
  assert (C1 : (1 <= Spec.ordinal (IterativeOptimizer.classifyBiasMetric value'))%Z
               -> (1 <= Spec.ordinal
                          (IterativeOptimizer.classifyBiasMetric value))%Z).
  { intros X. apply A1. apply B1 in X. lra. }
  assert (C2 : (2 <= Spec.ordinal (IterativeOptimizer.classifyBiasMetric value'))%Z
               -> (2 <= Spec.ordinal
                          (IterativeOptimizer.classifyBiasMetric value))%Z).
  { intros X. apply A2. apply B2 in X. lra. }
  assert (C3 : (3 <= Spec.ordinal (IterativeOptimizer.classifyBiasMetric value'))%Z
               -> (3 <= Spec.ordinal
                          (IterativeOptimizer.classifyBiasMetric value))%Z).
  { intros X. apply A3. apply B3 in X. lra. }
  clear A1 A2 A3 B1 B2 B3.
  destruct (IterativeOptimizer.classifyBiasMetric value'),
    (IterativeOptimizer.classifyBiasMetric value);
    cbn [Spec.ordinal] in *; lia.
Qed.

Lemma classifyBiasMetric_monotone_witness :
  (Spec.ordinal (IterativeOptimizer.classifyBiasMetric 0.2)
   <= Spec.ordinal (IterativeOptimizer.classifyBiasMetric 0.45))%Z.
Proof.
  apply classifyBiasMetric_monotone. vm_compute. discriminate.
Defined.

(** ** Perturbation *)

Section IndexedLoops.

Import IterativeOptimizer.

Lemma returns_foldM_counted {A B} (body : B -> A -> M B)
      (inv : nat -> B -> State -> Prop) :
  forall (l : list A) (k : nat) (acc : B) (st : State),
    inv k acc st ->
    (forall k' acc' x st', In x l -> inv k' acc' st' ->
                           returns (body acc' x) st' (inv (S k'))) ->
    returns (foldM body l acc) st (inv (k + length l)%nat).
Proof.
  induction l as [|x l IH]; intros k acc st Hinv Hbody; cbn [foldM length].
  - apply returns_ret. rewrite Nat.add_0_r. exact Hinv.
  - apply returns_bind.
    eapply returns_weaken; [apply Hbody; [left; reflexivity | exact Hinv]|].
    cbn beta. intros acc' st' Hinv'.
    replace (k + S (length l))%nat with (S k + length l)%nat by lia.
    apply IH; [exact Hinv'|].
    intros k' acc'' y st'' Hy. apply Hbody. right. exact Hy.
Qed.

Lemma returns_forM_counted {A} (body : A -> M unit) (step : nat)
      (inv : nat -> State -> Prop) :
  forall (l : list A) (k : nat) (st : State),
    inv k st ->
    (forall k' x st', In x l -> inv k' st' ->
                      returns (body x) st' (fun _ => inv (k' + step)%nat)) ->
    returns (forM_ l body) st (fun _ => inv (k + length l * step)%nat).
Proof.
  induction l as [|x l IH]; intros k st Hinv Hbody; cbn [forM_ length].
  - apply returns_ret. cbn [Nat.mul]. rewrite Nat.add_0_r. exact Hinv.
  - apply returns_bind.
    eapply returns_weaken; [apply Hbody; [left; reflexivity | exact Hinv]|].
    cbn beta. intros _ st' Hinv'.
    replace (k + S (length l) * step)%nat
      with ((k + step) + length l * step)%nat by lia.
    apply IH; [exact Hinv'|].
    intros k' y st'' Hy. apply Hbody. right. exact Hy.
Qed.

(** Two facts about one run hold together. *)
Lemma returns_both {A} (m : M A) (st : State) (P Q : A -> State -> Prop) :
  returns m st P -> returns m st Q ->
  returns m st (fun a st' => P a st' /\ Q a st').
Proof.
  intros (a & st' & Hm & HP) (a' & st'' & Hm' & HQ).
  rewrite Hm in Hm'. injection Hm' as <- <-.
  exists a, st'. auto.
Qed.

End IndexedLoops.

Lemma clamp_unit (value : Q) :
  0 <= IterativeOptimizer.clamp value 0 1 <= 1.
Proof.
  unfold IterativeOptimizer.clamp, Js.Math_max, Js.Math_min. split.
  - apply Q.le_max_l.
  - apply Q.max_lub; [lra | apply Q.le_min_l].
Qed.



Section Perturbation.

Import IterativeOptimizer.

Variable random : nat -> Q.

Lemma generateVariations_shape (baseSetup : SetupParameters.t) (range : Q)
      (count : nat) (st : State) :
  returns (generateVariations random baseSetup range count) st
          (fun variations st' =>
             length variations = count
             /\ Forall Props.in_range variations
             /\ randomCalls st' = (randomCalls st + 5 * count)%nat
             /\ same_fields st st').
Proof.
  unfold generateVariations.
  eapply returns_weaken.
  - apply (returns_foldM_counted _
             (fun k variations st' =>
                length variations = k
                /\ Forall Props.in_range variations
                /\ randomCalls st' = (randomCalls st + 5 * k)%nat
                /\ same_fields st st')) with (k := 0%nat).
    + split; [reflexivity|]. split; [constructor|].
      split; [lia | split; reflexivity].
    + intros k variations i st' _ (Hlen & Hrange & Hcalls & Hc & Hh).
      do 5 (apply returns_bind, Math_random_returns; cbv zeta).
      apply returns_ret.
      cbn [randomCalls candidates attemptHistory].
      split; [rewrite length_app, Hlen; cbn [length]; lia|].
      split; [|split; [lia | split; assumption]].
      apply Forall_app. split; [exact Hrange|].
      constructor; [|constructor].
      unfold Props.in_range, Spec.setupVector.
      cbn [SetupParameters.frontWingAngle SetupParameters.rearWingAngle
           SetupParameters.antiRollDistribution SetupParameters.tyreCamber
           SetupParameters.toeOut].
      repeat (constructor; [apply clamp_unit|]). constructor.
  - cbn beta. intros variations st'. rewrite length_seq. cbn [Nat.add].
    auto.
Qed.


End Perturbation.

(** X17. For any values of the generator, [generateVariations] returns
    exactly [count] setups, each with all components in [0, 1]; it draws
    five random numbers per setup and touches neither the pool nor the
    history. *)
Theorem generateVariations_count_and_range :
  forall (random : nat -> Q) (baseSetup : SetupParameters.t) (range : Q)
         (count : nat) (st : IterativeOptimizer.State),
  exists variations st',
    IterativeOptimizer.generateVariations random baseSetup range count st
    = Ok (variations, st')
    /\ length variations = count
    /\ Forall Props.in_range variations
    /\ IterativeOptimizer.randomCalls st'
       = (IterativeOptimizer.randomCalls st + 5 * count)%nat
    /\ IterativeOptimizer.candidates st' = IterativeOptimizer.candidates st
    /\ IterativeOptimizer.attemptHistory st'
       = IterativeOptimizer.attemptHistory st.
Proof.
  intros random baseSetup range count st.
  destruct (generateVariations_shape random baseSetup range count st)
    as (variations & st' & Hrun & Hlen & Hrange & Hcalls & Hc & Hh).
  exists variations, st'. repeat split; assumption.
Qed.



(** ** The pool *)

Section Pool.

Import IterativeOptimizer.

Lemma made_candidate_consistent (setup : SetupParameters.t) (b : CarBias.t) :
  Props.in_range setup ->
  SetupCalculator.calculateBias setup = Ok b ->
  Props.consistent
    {| SetupCandidate.setup := setup;
       SetupCandidate.bias := b;
       SetupCandidate.confidence := SetupCalculator.calculateConfidence b;
       SetupCandidate.feedback := generateFeedback b;
       SetupCandidate.score :=
         calculateScore setup b (SetupCalculator.calculateConfidence b) |}.
Proof.
  intros Hr Hb. unfold Props.consistent.
  cbn [SetupCandidate.setup SetupCandidate.bias SetupCandidate.confidence
       SetupCandidate.feedback SetupCandidate.score].
  repeat split; try assumption; reflexivity.
Qed.

Lemma initializeCandidates_pool (st : State) :
  returns initializeCandidates st
          (fun _ st' =>
             length (candidates st') = (6 * 6 * 6 * 6 * 6)%nat
             /\ Forall Props.consistent (candidates st')
             /\ attemptHistory st' = attemptHistory st
             /\ randomCalls st' = randomCalls st).
Proof.
  unfold initializeCandidates. cbv zeta.
  apply returns_bind, returns_modify. apply returns_bind.
  set (levels := Js.for_le 0 10 2).
  assert (Hlevels : length levels = 6%nat) by reflexivity.
  set (inv := fun (k : nat) (st' : State) =>
                length (candidates st') = k
                /\ Forall Props.consistent (candidates st')
                /\ attemptHistory st' = attemptHistory st
                /\ randomCalls st' = randomCalls st).
  apply returns_weaken
    with (P := fun _ => inv (0 + length levels
                                 * (length levels
                                    * (length levels
                                       * (length levels
                                          * (length levels * 1)))))%nat).
  - apply returns_forM_counted.
    { split; [reflexivity|]. split; [constructor | split; reflexivity]. }
    intros k1 fw st1 Hfw H1. apply returns_forM_counted; [exact H1|].
    intros k2 rw st2 Hrw H2. apply returns_forM_counted; [exact H2|].
    intros k3 ar st3 Har H3. apply returns_forM_counted; [exact H3|].
    intros k4 tc st4 Htc H4. apply returns_forM_counted; [exact H4|].
    intros k5 to st5 Hto (Hlen & Hcons & Hh & Hr).
    apply returns_bind.
    match goal with
    | |- returns (lift (SetupCalculator.calculateBias ?s)) _ _ =>
        destruct (calculateBias_Ok s) as [b Hb];
        apply (returns_lift _ b); [exact Hb|]
    end.
    apply returns_modify.
    unfold inv. cbn [set_candidates candidates attemptHistory randomCalls].
    split; [rewrite length_app, Hlen; cbn [length]; lia|].
    split; [|split; assumption].
    apply Forall_app. split; [exact Hcons|].
    constructor; [|constructor].
    apply made_candidate_consistent; [|exact Hb].
    unfold Props.in_range, Spec.setupVector.
    cbn [SetupParameters.frontWingAngle SetupParameters.rearWingAngle
         SetupParameters.antiRollDistribution SetupParameters.tyreCamber
         SetupParameters.toeOut].
    repeat (constructor;
            [apply level_in_unit_interval; [lia | right; assumption]|]).
    constructor.
  - intros _ st' (Hlen & Hcons & Hh & Hr). apply returns_modify.
    cbn [set_candidates candidates attemptHistory randomCalls].
    pose proof (sort_Permutation byScore (candidates st')) as Hperm.
    split; [rewrite <- (Permutation_length Hperm), Hlen, Hlevels; lia|].
    split; [|split; assumption].
    eapply Permutation_Forall; [exact Hperm | exact Hcons].
Qed.

Variable random : nat -> Q.

Lemma expandCandidatesAroundBest_pool (feedback : Biasfeedback.t)
      (st : State) :
  returns (expandCandidatesAroundBest random feedback) st
          (fun _ st' =>
             exists extra,
               candidates st' = candidates st ++ extra
               /\ Forall (Spec.compatible_on_all_metrics feedback) extra
               /\ Forall Props.consistent extra
               /\ (length extra <= 5 * length (firstn 3 (candidates st)))%nat
               /\ randomCalls st'
                  = (randomCalls st + 25 * length (firstn 3 (candidates st)))%nat
               /\ attemptHistory st' = attemptHistory st).
Proof.
  unfold expandCandidatesAroundBest.
  apply returns_bind, returns_gets. cbv zeta. apply returns_bind.
  set (inv := fun (k : nat) (acc : list SetupCandidate.t) (st' : State) =>
                Forall (Spec.compatible_on_all_metrics feedback) acc
                /\ Forall Props.consistent acc
                /\ (length acc <= 5 * k)%nat
                /\ randomCalls st' = (randomCalls st + 25 * k)%nat
                /\ same_fields st st').
  apply returns_weaken
    with (P := inv (0 + length (firstn 3 (candidates st)))%nat).
  - apply returns_foldM_counted.
    { split; [constructor|]. split; [constructor|].
      split; [cbn [length]; lia|]. split; [lia | split; reflexivity]. }
    intros k acc candidate st1 _ (Hcompat & Hcons & Hlen & Hcalls & Hsame).
    apply returns_bind.
    eapply returns_weaken;
      [apply (generateVariations_shape random
                (SetupCandidate.setup candidate) 0.1 5 st1)|].
    cbn beta. intros variations st2 (Hvlen & Hvrange & Hvcalls & Hvsame).
    set (inv2 := fun (j : nat) (acc' : list SetupCandidate.t) (st' : State) =>
                   Forall (Spec.compatible_on_all_metrics feedback) acc'
                   /\ Forall Props.consistent acc'
                   /\ (length acc' <= 5 * k + j)%nat
                   /\ st' = st2).
    apply returns_weaken with (P := inv2 (0 + length variations)%nat).
    + apply returns_foldM_counted.
      { split; [exact Hcompat|]. split; [exact Hcons|]. split; [lia|].
        reflexivity. }
      intros j acc' variation st3 Hin (Hcompat' & Hcons' & Hlen' & ->).
      apply returns_bind.
      destruct (calculateBias_Ok variation) as [b Hb].
      apply (returns_lift _ b); [exact Hb|]. cbv zeta.
      destruct (feedbackMatches (generateFeedback b) feedback) eqn:E;
        apply returns_ret.
      * split; [|split; [|split; [|reflexivity]]].
        -- apply Forall_app. split; [exact Hcompat'|].
           constructor; [|constructor].
           exact (proj1 (feedbackMatches_true_iff _ _) E).
        -- apply Forall_app. split; [exact Hcons'|].
           constructor; [|constructor].
           apply made_candidate_consistent; [|exact Hb].
           rewrite Forall_forall in Hvrange. apply Hvrange, Hin.
        -- rewrite length_app. cbn [length]. lia.
      * split; [exact Hcompat'|]. split; [exact Hcons'|].
        split; [lia | reflexivity].
    + intros acc' st3 (Hcompat' & Hcons' & Hlen' & ->).
      split; [exact Hcompat'|]. split; [exact Hcons'|].
      split; [lia|]. split; [lia|].
      destruct Hsame as [Hc1 Hh1], Hvsame as [Hc2 Hh2]. split; congruence.
  - intros newCandidates st' (Hcompat & Hcons & Hlen & Hcalls & Hc & Hh).
    apply returns_modify.
    cbn [set_candidates candidates attemptHistory randomCalls].
    exists newCandidates. rewrite Hc.
    repeat split; try assumption; lia.
Qed.

Lemma recordAttempt_pool (setup : SetupParameters.t)
      (feedback : Biasfeedback.t) (st : State) :
  returns (recordAttempt random setup feedback) st
          (fun _ st' =>
             exists extra,
               candidates st'
               = Js.sort byScore
                   (Props.survivors feedback (candidates st) ++ extra)
               /\ Forall (Spec.compatible_on_all_metrics feedback) extra
               /\ Forall Props.consistent extra
               /\ (length extra
                   <= 5 * length (firstn 3 (Props.survivors feedback
                                              (candidates st))))%nat
               /\ (if (length (Props.survivors feedback (candidates st)) <? 5)%nat
                   then randomCalls st'
                        = (randomCalls st
                           + 25 * length
                                    (firstn 3 (Props.survivors feedback
                                                 (candidates st))))%nat
                   else extra = [] /\ randomCalls st' = randomCalls st)).
Proof.
  unfold recordAttempt.
  destruct (calculateBias_Ok setup) as [b Hb].
  apply returns_bind. apply (returns_lift _ b); [exact Hb|]. cbv zeta.
  apply returns_bind, returns_modify.
  unfold narrowCandidates.
  apply returns_bind, returns_modify.
  apply returns_bind, returns_gets.
  cbn [set_candidates set_attemptHistory candidates attemptHistory randomCalls].
  fold (Props.survivors feedback (candidates st)).
  set (surv := Props.survivors feedback (candidates st)).
  apply returns_bind.
  destruct (length surv <? 5)%nat.
  - eapply returns_weaken; [apply expandCandidatesAroundBest_pool|].
    cbn beta.
    cbn [set_candidates set_attemptHistory candidates attemptHistory
         randomCalls].
    intros _ st' (extra & Hc & Hcompat & Hcons & Hlen & Hcalls & _).
    apply returns_modify.
    cbn [set_candidates candidates randomCalls].
    exists extra. rewrite Hc. repeat split; assumption.
  - apply returns_ret. apply returns_modify.
    cbn [set_candidates set_attemptHistory candidates attemptHistory
         randomCalls].
    exists []. rewrite app_nil_r.
    repeat split; try constructor. cbn [length]. lia.
Qed.

End Pool.

Lemma new_pool (calls : nat) :
  exists st,
    IterativeOptimizer.new calls = Ok st
    /\ length (IterativeOptimizer.candidates st) = (6 * 6 * 6 * 6 * 6)%nat
    /\ Forall Props.consistent (IterativeOptimizer.candidates st)
    /\ IterativeOptimizer.attemptHistory st = []
    /\ IterativeOptimizer.randomCalls st = calls.
Proof.
  unfold IterativeOptimizer.new, IterativeOptimizer.constructor,
    IterativeOptimizer.bind, IterativeOptimizer.modify.
  destruct (initializeCandidates_pool
              (IterativeOptimizer.set_attemptHistory []
                 (IterativeOptimizer.set_candidates []
                    (IterativeOptimizer.mkState [] [] calls))))
    as ([] & st & Hrun & Hlen & Hcons & Hh & Hr).
  exists st. rewrite Hrun. repeat split; assumption.
Qed.

Lemma survivors_incl (feedback : Biasfeedback.t)
      (pool : list SetupCandidate.t) (P : SetupCandidate.t -> Prop) :
  Forall P pool -> Forall P (Props.survivors feedback pool).
Proof.
  intros H. apply Forall_forall. intros c Hc.
  apply filter_In in Hc. rewrite Forall_forall in H. apply H, Hc.
Qed.

Lemma survivors_all (feedback : Biasfeedback.t)
      (pool : list SetupCandidate.t) :
  Forall (Spec.compatible_on_all_metrics feedback) pool ->
  Props.survivors feedback pool = pool.
Proof.
  unfold Props.survivors.
  induction 1 as [|c pool Hc _ IH]; cbn [filter]; [reflexivity|].
  rewrite (proj2 (feedbackMatches_true_iff _ _) Hc), IH. reflexivity.
Qed.

(** X19. A new optimizer has a pool of 6^5 = 7776 candidates, each with its
    setup in range and with bias, confidence, feedback and score derived
    from that setup; its history is empty. *)
Theorem new_pool_size_and_consistency :
  forall calls : nat,
  exists st,
    IterativeOptimizer.new calls = Ok st
    /\ Z.of_nat (Stats.totalCandidates (IterativeOptimizer.getStats st))
       = 7776%Z
    /\ Stats.attemptCount (IterativeOptimizer.getStats st) = 0%nat
    /\ Forall Props.consistent (IterativeOptimizer.candidates st)
    /\ IterativeOptimizer.randomCalls st = calls.
Proof.
  intros calls.
  destruct (new_pool calls) as (st & Hnew & Hlen & Hcons & Hh & Hr).
  exists st. split; [exact Hnew|].
  unfold IterativeOptimizer.getStats.
  cbn [Stats.totalCandidates Stats.attemptCount].
  rewrite Hlen, Hh. repeat split; try assumption; lia.
Qed.

(** X20. From any state, [reset] returns with an empty history and a pool of
    7776 consistent candidates again, and draws no random number. *)
Theorem reset_restores_fresh_pool :
  forall st : IterativeOptimizer.State,
  exists st',
    IterativeOptimizer.reset st = Ok (tt, st')
    /\ Stats.attemptCount (IterativeOptimizer.getStats st') = 0%nat
    /\ Z.of_nat (Stats.totalCandidates (IterativeOptimizer.getStats st'))
       = 7776%Z
    /\ Forall Props.consistent (IterativeOptimizer.candidates st')
    /\ IterativeOptimizer.randomCalls st' = IterativeOptimizer.randomCalls st.
Proof.
  intros st.
  destruct (initializeCandidates_pool (IterativeOptimizer.set_attemptHistory [] st))
    as ([] & st' & Hrun & Hlen & Hcons & Hh & Hr).
  exists st'. split.
  - unfold IterativeOptimizer.reset, IterativeOptimizer.bind,
      IterativeOptimizer.modify. exact Hrun.
  - unfold IterativeOptimizer.getStats.
    cbn [Stats.totalCandidates Stats.attemptCount].
    rewrite Hlen, Hh. cbn [IterativeOptimizer.set_attemptHistory
      IterativeOptimizer.attemptHistory length].
    repeat split; try assumption; lia.
Qed.

(** X21. [recordAttempt] keeps the pool consistent: if every candidate was
    consistent before, every candidate, regenerated ones included, is
    consistent afterwards. *)
Theorem recordAttempt_keeps_pool_consistent :
  forall (random : nat -> Q) (st : IterativeOptimizer.State)
         (setup : SetupParameters.t) (feedback : Biasfeedback.t),
    Forall Props.consistent (IterativeOptimizer.candidates st) ->
    exists st',
      IterativeOptimizer.recordAttempt random setup feedback st = Ok (tt, st')
      /\ Forall Props.consistent (IterativeOptimizer.candidates st').
Proof.
  intros random st setup feedback Hcons.
  destruct (recordAttempt_pool random setup feedback st)
    as ([] & st' & Hrun & extra & Hc & _ & Hextra & _).
  exists st'. split; [exact Hrun|]. rewrite Hc.
  eapply Permutation_Forall; [apply sort_Permutation|].
  apply Forall_app. split; [apply survivors_incl, Hcons | exact Hextra].
Qed.

Lemma mid_candidate_consistent : Props.consistent Samples.mid_candidate.
Proof.
  apply made_candidate_consistent; [|apply bias_of_Ok].
  repeat (constructor; [split; vm_compute; discriminate|]). constructor.
Qed.

Lemma recordAttempt_keeps_pool_consistent_witness :
  exists st',
    IterativeOptimizer.recordAttempt Samples.alternating Examples.wide
      Examples.mid_feedback Samples.pair = Ok (tt, st')
    /\ Forall Props.consistent (IterativeOptimizer.candidates st').
Proof.
  apply recordAttempt_keeps_pool_consistent.
  cbn [Samples.pair IterativeOptimizer.candidates repeat].
  repeat (constructor; [apply mid_candidate_consistent|]). constructor.
Defined.

(** X22. [recordAttempt] never drops a candidate whose feedback matches the
    submitted one; and when at least five candidates match, the new pool
    consists of exactly those and no random number is drawn. *)
Theorem recordAttempt_keeps_matching_candidates :
  forall (random : nat -> Q) (st : IterativeOptimizer.State)
         (setup : SetupParameters.t) (feedback : Biasfeedback.t),
  exists st',
    IterativeOptimizer.recordAttempt random setup feedback st = Ok (tt, st')
    /\ (forall c,
           In c (IterativeOptimizer.candidates st) ->
           IterativeOptimizer.feedbackMatches (SetupCandidate.feedback c)
                                              feedback = true ->
           In c (IterativeOptimizer.candidates st'))
    /\ ((5 <= length (Props.survivors feedback
                        (IterativeOptimizer.candidates st)))%nat ->
        Permutation (Props.survivors feedback
                       (IterativeOptimizer.candidates st))
                    (IterativeOptimizer.candidates st')
        /\ IterativeOptimizer.randomCalls st'
           = IterativeOptimizer.randomCalls st).
Proof.
  intros random st setup feedback.
  destruct (recordAttempt_pool random setup feedback st)
    as ([] & st' & Hrun & extra & Hc & _ & _ & _ & Hcase).
  exists st'. split; [exact Hrun|]. split.
  - intros c Hin Hmatch. rewrite Hc.
    apply (Permutation_in _ (sort_Permutation _ _)).
    apply in_or_app. left. apply filter_In. split; assumption.
  - intros Hfive.
    destruct (Nat.ltb_spec
                (length (Props.survivors feedback
                           (IterativeOptimizer.candidates st))) 5)
      as [Hlt|_]; [lia|].
    destruct Hcase as [-> Hcalls]. split; [|exact Hcalls].
    rewrite Hc, app_nil_r. apply sort_Permutation.
Qed.

(** X23. When fewer than five candidates match, [recordAttempt] draws 25
    random numbers for each of the first three matching candidates and adds
    at most five candidates for each of them, so the pool ends with at most
    19 candidates; in every case the pool grows by at most 15 beyond the
    matching candidates. *)
Theorem recordAttempt_bounded_regeneration :
  forall (random : nat -> Q) (st : IterativeOptimizer.State)
         (setup : SetupParameters.t) (feedback : Biasfeedback.t),
  exists st',
    IterativeOptimizer.recordAttempt random setup feedback st = Ok (tt, st')
    /\ let matching :=
         length (Props.survivors feedback (IterativeOptimizer.candidates st)) in
       (matching <= length (IterativeOptimizer.candidates st') <= matching + 15)%nat
       /\ ((matching < 5)%nat ->
           (length (IterativeOptimizer.candidates st') <= 19)%nat
           /\ IterativeOptimizer.randomCalls st'
              = (IterativeOptimizer.randomCalls st
                 + 25 * Nat.min 3 matching)%nat).
Proof.
  intros random st setup feedback.
  destruct (recordAttempt_pool random setup feedback st)
    as ([] & st' & Hrun & extra & Hc & _ & _ & Hlen & Hcase).
  exists st'. split; [exact Hrun|]. cbv zeta.
  rewrite length_firstn in Hlen, Hcase.
  assert (Hsize : length (IterativeOptimizer.candidates st')
                  = (length (Props.survivors feedback
                               (IterativeOptimizer.candidates st))
                     + length extra)%nat).
  { rewrite Hc, <- (Permutation_length (sort_Permutation _ _)).
    apply length_app. }
  split; [lia|]. intros Hlt.
  destruct (Nat.ltb_spec
              (length (Props.survivors feedback
                         (IterativeOptimizer.candidates st))) 5)
    as [_|Hge]; [|lia].
  split; [lia | exact Hcase].
Qed.

(** X24. Submitting the same feedback again changes nothing when the pool
    left by the first attempt has at least five candidates: the second
    [recordAttempt] leaves the pool as it is and draws no random number. *)
Theorem recordAttempt_same_feedback_again :
  forall (random : nat -> Q) (st st1 : IterativeOptimizer.State)
         (setup setup' : SetupParameters.t) (feedback : Biasfeedback.t),
    IterativeOptimizer.recordAttempt random setup feedback st = Ok (tt, st1) ->
    (5 <= length (IterativeOptimizer.candidates st1))%nat ->
    exists st2,
      IterativeOptimizer.recordAttempt random setup' feedback st1
      = Ok (tt, st2)
      /\ IterativeOptimizer.candidates st2 = IterativeOptimizer.candidates st1
      /\ IterativeOptimizer.randomCalls st2
         = IterativeOptimizer.randomCalls st1.
Proof.
  intros random st st1 setup setup' feedback Hrun1 Hfive.
  destruct (recordAttempt_returns random setup feedback st)
    as (b & _ & [] & st1' & Hrun1' & Hcompat & Hsorted & _).
  rewrite Hrun1 in Hrun1'. injection Hrun1' as <-.
  destruct (recordAttempt_pool random setup' feedback st1)
    as ([] & st2 & Hrun2 & extra & Hc & _ & _ & _ & Hcase).
  exists st2. split; [exact Hrun2|].
  rewrite (survivors_all _ _ Hcompat) in Hc, Hcase.
  destruct (Nat.ltb_spec (length (IterativeOptimizer.candidates st1)) 5)
    as [Hlt|_]; [lia|].
  destruct Hcase as [-> Hcalls]. split; [|exact Hcalls].
  rewrite Hc, app_nil_r.
  apply (sort_descending_fixpoint SetupCandidate.score). exact Hsorted.
Qed.

Lemma recordAttempt_same_feedback_again_witness :
  exists st1 st2,
    IterativeOptimizer.recordAttempt Samples.alternating Spec.mid
      Examples.mid_feedback Samples.crowd = Ok (tt, st1)
    /\ IterativeOptimizer.recordAttempt Samples.alternating Examples.ones
         Examples.mid_feedback st1 = Ok (tt, st2)
    /\ IterativeOptimizer.candidates st2 = IterativeOptimizer.candidates st1.
Proof.
  assert (H1 : exists st1,
             IterativeOptimizer.recordAttempt Samples.alternating Spec.mid
               Examples.mid_feedback Samples.crowd = Ok (tt, st1)
             /\ (5 <= length (IterativeOptimizer.candidates st1))%nat).
  { eexists. split; [vm_compute; reflexivity|]. vm_compute. lia. }
  destruct H1 as (st1 & Hrun1 & Hfive).
  destruct (recordAttempt_same_feedback_again Samples.alternating
              Samples.crowd st1 Spec.mid Examples.ones Examples.mid_feedback
              Hrun1 Hfive) as (st2 & Hrun2 & Hsame & _).
  exists st1, st2. repeat split; assumption.
Defined.

(** ** What a session can reach *)

Lemma reset_run (st : IterativeOptimizer.State)
      (r : result (unit * IterativeOptimizer.State)) :
  IterativeOptimizer.initializeCandidates
    (IterativeOptimizer.set_attemptHistory [] st) = r ->
  IterativeOptimizer.reset st = r.
Proof.
  intros H. unfold IterativeOptimizer.reset, IterativeOptimizer.bind,
    IterativeOptimizer.modify. exact H.
Qed.

Lemma reachable_consistent (random : nat -> Q)
      (st : IterativeOptimizer.State) :
  Props.reachable random st ->
  Forall Props.consistent (IterativeOptimizer.candidates st).
Proof.
  induction 1 as [calls st Hnew | st st' setup feedback _ IH Hrun
                 | st st' _ _ Hrun].
  - destruct (new_pool calls) as (st0 & Hnew0 & _ & Hcons & _).
    rewrite Hnew in Hnew0. injection Hnew0 as <-. exact Hcons.
  - destruct (recordAttempt_pool random setup feedback st)
      as ([] & st1 & Hrun1 & extra & Hc & _ & Hextra & _).
    rewrite Hrun in Hrun1. injection Hrun1 as <-. rewrite Hc.
    eapply Permutation_Forall; [apply sort_Permutation|].
    apply Forall_app. split; [apply survivors_incl, IH | exact Hextra].
  - destruct (initializeCandidates_pool
                (IterativeOptimizer.set_attemptHistory [] st))
      as ([] & st1 & Hrun1 & _ & Hcons & _).
    apply reset_run in Hrun1.
    rewrite Hrun in Hrun1. injection Hrun1 as <-. exact Hcons.
Qed.

Lemma consistent_confidence_le_96 (c : SetupCandidate.t) :
  Props.consistent c -> SetupCandidate.confidence c <= 96.
Proof.
  intros (Hr & Hb & Hconf & _). rewrite Hconf.
  exact (in_range_confidence_le_96 _ _ Hr Hb).
Qed.

Lemma estimate_positive (st : IterativeOptimizer.State) :
  Stats.bestConfidence (IterativeOptimizer.getStats st) < 99 ->
  exists n : Z,
    (0 < n)%Z /\ IterativeOptimizer.estimateAttemptsToOptimal st = inject_Z n.
Proof.
  intros Hbest.
  unfold IterativeOptimizer.estimateAttemptsToOptimal. cbv zeta.
  set (best := Stats.bestConfidence (IterativeOptimizer.getStats st)) in *.
  set (rate := Stats.convergenceRate (IterativeOptimizer.getStats st)).
  destruct (Js.geb best 99) eqn:Ebest.
  - apply geb_true_iff in Ebest. exfalso. apply (Qlt_not_le _ _ Hbest Ebest).
  - destruct (Js.leb rate 0) eqn:Erate.
    + exists 5%Z. split; reflexivity.
    + apply leb_false_iff in Erate.
      exists (Qceiling ((99 - best) / rate)). split; [|reflexivity].
      assert (Hq : 0 < (99 - best) / rate).
      { apply Qlt_shift_div_l; [exact Erate|].
        clearbody best rate. lra. }
      pose proof (Qle_ceiling ((99 - best) / rate)) as Hc.
      rewrite Zlt_Qlt. eapply Qlt_le_trans; eassumption.
Qed.

(** X25. An optimizer that was constructed and then only driven through
    [recordAttempt] and [reset] never reports an optimal setup: its best
    confidence stays at or below 96, [isOptimal] is false, and
    [estimateAttemptsToOptimal] is a positive integer. *)
Theorem reachable_never_optimal :
  forall (random : nat -> Q) (st : IterativeOptimizer.State),
    Props.reachable random st ->
    Stats.bestConfidence (IterativeOptimizer.getStats st) <= 96
    /\ IterativeOptimizer.isOptimal st = false
    /\ exists n : Z,
        (0 < n)%Z
        /\ IterativeOptimizer.estimateAttemptsToOptimal st = inject_Z n.
Proof.
  intros random st Hreach.
  pose proof (reachable_consistent random st Hreach) as Hcons.
  assert (Hbest : Stats.bestConfidence (IterativeOptimizer.getStats st) <= 96).
  { unfold IterativeOptimizer.getStats. cbn [Stats.bestConfidence].
    destruct (IterativeOptimizer.candidates st) as [|c pool]; [lra|].
    apply consistent_confidence_le_96, (Forall_inv Hcons). }
  split; [exact Hbest|]. split.
  - unfold IterativeOptimizer.isOptimal.
    destruct (IterativeOptimizer.candidates st) as [|c pool]; [reflexivity|].
    apply geb_false_iff.
    pose proof (consistent_confidence_le_96 c (Forall_inv Hcons)). lra.
  - apply estimate_positive. lra.
Qed.

Lemma reachable_never_optimal_witness :
  exists st,
    IterativeOptimizer.new 0 = Ok st
    /\ IterativeOptimizer.isOptimal st = false.
Proof.
  destruct (new_pool 0) as (st & Hnew & _).
  exists st. split; [exact Hnew|].
  apply (reachable_never_optimal Examples.half st).
  apply (Props.reachable_new Examples.half 0 st Hnew).
Defined.

(** X26. [isOptimal] and [estimateAttemptsToOptimal] agree: the estimate is
    0 exactly when [isOptimal] holds. *)
Theorem isOptimal_iff_estimate_zero :
  forall st : IterativeOptimizer.State,
    IterativeOptimizer.isOptimal st = true
    <-> IterativeOptimizer.estimateAttemptsToOptimal st == 0.
Proof.
  intros st. split.
  - intros Hopt.
    unfold IterativeOptimizer.isOptimal in Hopt.
    unfold IterativeOptimizer.estimateAttemptsToOptimal,
      IterativeOptimizer.getStats. cbv zeta. cbn [Stats.bestConfidence].
    destruct (IterativeOptimizer.candidates st) as [|c pool];
      [discriminate|].
    apply geb_true_iff in Hopt.
    assert (E : Js.geb (SetupCandidate.confidence c) 99 = true)
      by (apply geb_true_iff; lra).
    rewrite E. reflexivity.
  - intros Hzero.
    destruct (Qlt_le_dec (Stats.bestConfidence
                            (IterativeOptimizer.getStats st)) 99) as [Hlt|Hge].
    + destruct (estimate_positive st Hlt) as (n & Hn & En).
      rewrite En in Hzero. exfalso.
      rewrite (Zlt_Qlt 0 n) in Hn.
      apply (Qlt_not_le _ _ Hn). rewrite Hzero. apply Qle_refl.
    + unfold IterativeOptimizer.getStats in Hge.
      cbn [Stats.bestConfidence] in Hge.
      unfold IterativeOptimizer.isOptimal.
      destruct (IterativeOptimizer.candidates st) as [|c pool].
      * exfalso. apply (Qlt_not_le 0 99); [reflexivity | exact Hge].
      * apply geb_true_iff. lra.
Qed.

(** ** The convergence rate *)




(** ** Recommendations *)

(** X28. On a pool sorted by score, [getBestRecommendations(count)] returns
    [count] setups, or all of them if the pool is smaller (none on an empty
    pool); they are the setups of the first candidates, and no candidate
    outside those has a higher score than one of them. *)
Theorem getBestRecommendations_top :
  forall (st : IterativeOptimizer.State) (count : nat),
    Spec.sorted_by_score (IterativeOptimizer.candidates st) ->
    length (IterativeOptimizer.getBestRecommendations count st)
    = Nat.min count (length (IterativeOptimizer.candidates st))
    /\ forall c,
        In c (IterativeOptimizer.candidates st) ->
        In c (firstn count (IterativeOptimizer.candidates st))
        \/ forall c',
            In c' (firstn count (IterativeOptimizer.candidates st)) ->
            SetupCandidate.score c <= SetupCandidate.score c'.
Proof.
  intros st count Hsorted.
  unfold IterativeOptimizer.getBestRecommendations.
  split; [rewrite length_map; apply length_firstn|].
  intros c Hc.
  rewrite <- (firstn_skipn count (IterativeOptimizer.candidates st))
    in Hc, Hsorted.
  apply in_app_or in Hc. destruct Hc as [Hc|Hc]; [left; exact Hc|].
  right. intros c' Hc'.
  destruct (descending_app SetupCandidate.score _ _ Hsorted) as [_ Hcross].
  apply (Hcross c' c Hc' Hc).
Qed.

Lemma getBestRecommendations_top_witness :
  length (IterativeOptimizer.getBestRecommendations 5 Samples.pair)
  = Nat.min 5 (length (IterativeOptimizer.candidates Samples.pair)).
Proof.
  apply (getBestRecommendations_top Samples.pair 5).
  cbn [Samples.pair IterativeOptimizer.candidates repeat].
  repeat (constructor; [|repeat (constructor; [apply Qle_refl|]); constructor]).
  constructor.
Defined.
